(** * one-mcp skill templates: [executor.py] and [refresh_tool_docs.py]

    A shallow embedding of the two command-line scripts under
    [backend/templates/skill/] and of the properties their description
    states about them.

    The scripts are Python.  What they compute on are values decoded from
    JSON, so the value universe of the model is [JSON]; dictionaries keep
    their insertion order and are association lists.  What they do to the
    outside (HTTP exchanges, standard output, files) is threaded through an
    explicit state, and a raised exception is a result, not a crash of the
    model.  Library functions the scripts only call ([json.loads],
    [yaml.dump], [urllib.request.urlopen], [repr], [pathlib]'s [/]) are
    fields of two interfaces, [PyLib] and [Network]; every theorem holds for
    all their implementations. *)

From Stdlib Require Import ZArith String Ascii List Floats Lia DecimalString.
From stdpp Require Import base option strings gmap list.

#[local] Set Warnings "-register-all".

Local Open Scope string_scope.
Local Open Scope Z_scope.

(** ** Values *)

(** What [json.loads] can return.  Python's [int] is unbounded ([Z]); its
    [float] is an IEEE 754 binary64, which is Rocq's primitive [float]. *)
Inductive JSON : Type :=
| JNull
| JBool (b : bool)
| JInt (z : Z)
| JFloat (f : float)
| JString (s : string)
| JArray (l : list JSON)
| JObject (o : list (string * JSON)).

(** A Python [dict] with [str] keys, in insertion order. *)
Abbreviation pydict := (list (string * JSON)).

Fixpoint dict_lookup (k : string) (o : pydict) : option JSON :=
  match o with
  | [] => None
  | (k', v) :: o' => if String.eqb k k' then Some v else dict_lookup k o'
  end.

(** [d[k] = v]: an existing key keeps its position, a new one goes last. *)
Fixpoint dict_set (k : string) (v : JSON) (o : pydict) : pydict :=
  match o with
  | [] => [(k, v)]
  | (k', v') :: o' =>
      if String.eqb k k' then (k', v) :: o' else (k', v') :: dict_set k v o'
  end.

Definition dict_keys (o : pydict) : list string := map fst o.

Definition dict_has (k : string) (o : pydict) : bool :=
  match dict_lookup k o with Some _ => true | None => false end.

(** Python truthiness ([if v:], [if not v:]). *)
Definition truthy (v : JSON) : bool :=
  match v with
  | JNull => false
  | JBool b => b
  | JInt z => negb (z =? 0)
  | JFloat f => negb (PrimFloat.eqb f 0%float)
  | JString s => negb (String.eqb s "")
  | JArray l => match l with [] => false | _ => true end
  | JObject o => match o with [] => false | _ => true end
  end.

(** [if not self.session_id]: the field holds [None] or a [str]. *)
Definition truthy_opt (s : option string) : bool :=
  match s with
  | None => false
  | Some s => negb (String.eqb s "")
  end.

(** ** Exceptions and results *)

(** The subclasses of [Exception] the scripts can meet.  The built-in ones
    record what was being done to which value, not the interpreter's
    message. *)
Inductive PyExc : Type :=
| Exception (msg : string)                 (* [raise Exception(msg)] *)
| KeyError (key : string)                  (* [d[key]], key missing *)
| TypeError (op : string) (v : JSON)       (* [op] does not apply to [v] *)
| AttributeError (attr : string) (v : JSON)(* [v.attr] does not exist *)
| JSONDecodeError (doc : string)           (* [json.loads(doc)] *)
| URLError (reason : string)               (* [urllib.error.URLError] *)
| HTTPError (code : Z) (msg : string)      (* [urllib.error.HTTPError] *)
| ValueError (msg : string)
| OSError (path : string).                 (* [open(path)] failed *)

(** The outcome of running a piece of Python: a value, an exception that
    [except Exception] catches, or [SystemExit], which it does not. *)
Inductive Res (A : Type) : Type :=
| Ok (a : A)
| Raise (e : PyExc)
| Exit (code : Z).
Arguments Ok {A} a.
Arguments Raise {A} e.
Arguments Exit {A} code.

Definition res_bind {A B} (r : Res A) (k : A -> Res B) : Res B :=
  match r with
  | Ok a => k a
  | Raise e => Raise e
  | Exit c => Exit c
  end.

(** Stateful code: the state survives an exception. *)
Definition M (S A : Type) : Type := S -> Res A * S.

Definition ret {S A} (a : A) : M S A := fun s => (Ok a, s).
Definition raise {S A} (e : PyExc) : M S A := fun s => (Raise e, s).
Definition sys_exit {S A} (code : Z) : M S A := fun s => (Exit code, s).
Definition bind {S A B} (m : M S A) (k : A -> M S B) : M S B :=
  fun s =>
    match m s with
    | (Ok a, s') => k a s'
    | (Raise e, s') => (Raise e, s')
    | (Exit c, s') => (Exit c, s')
    end.
Definition lift {S A} (r : Res A) : M S A := fun s => (r, s).
Definition get {S} : M S S := fun s => (Ok s, s).
Definition modify {S} (f : S -> S) : M S unit := fun s => (Ok tt, f s).

(** [try: body  except Exception as e: handler(e)]. *)
Definition try_except {S A} (body : M S A) (handler : PyExc -> M S A) : M S A :=
  fun s =>
    match body s with
    | (Raise e, s') => handler e s'
    | r => r
    end.

Declare Scope py_scope.
Delimit Scope py_scope with py.
Notation "x <- c ;; k" := (bind c (fun x => k))
  (at level 100, c at next level, right associativity) : py_scope.
Notation "c ;;; k" := (bind c (fun _ => k))
  (at level 100, right associativity) : py_scope.

Declare Scope res_scope.
Delimit Scope res_scope with res.
Notation "x <- c ;; k" := (res_bind c (fun x => k))
  (at level 100, c at next level, right associativity) : res_scope.

(** ** Python operations on decoded values *)

Fixpoint str_prefix (p s : string) : bool :=
  match p, s with
  | EmptyString, _ => true
  | String a p', String b s' => if Ascii.eqb a b then str_prefix p' s' else false
  | String _ _, EmptyString => false
  end.

(** [needle in hay] on two [str]. *)
Fixpoint str_contains (needle hay : string) : bool :=
  if str_prefix needle hay then true
  else match hay with
       | EmptyString => false
       | String _ hay' => str_contains needle hay'
       end.

Definition str_chars (s : string) : list JSON :=
  map (fun c => JString (String c EmptyString)) (list_ascii_of_string s).

(** [x == key] where [key] is a [str]: only an equal [str] is equal. *)
Definition eq_str (key : string) (x : JSON) : bool :=
  match x with
  | JString s => String.eqb key s
  | _ => false
  end.

(** [key in v]. *)
Definition py_in (key : string) (v : JSON) : Res bool :=
  match v with
  | JObject o => Ok (dict_has key o)
  | JArray l => Ok (existsb (eq_str key) l)
  | JString s => Ok (str_contains key s)
  | _ => Raise (TypeError "in" v)
  end.

(** [v.get(key, default)]: only a [dict] has [get]. *)
Definition py_get (v : JSON) (key : string) (default : JSON) : Res JSON :=
  match v with
  | JObject o => Ok (match dict_lookup key o with Some x => x | None => default end)
  | _ => Raise (AttributeError "get" v)
  end.

(** [v[key]] with a [str] key. *)
Definition py_getitem (v : JSON) (key : string) : Res JSON :=
  match v with
  | JObject o =>
      match dict_lookup key o with
      | Some x => Ok x
      | None => Raise (KeyError key)
      end
  | _ => Raise (TypeError "getitem" v)
  end.

(** [v.items()]. *)
Definition py_items (v : JSON) : Res pydict :=
  match v with
  | JObject o => Ok o
  | _ => Raise (AttributeError "items" v)
  end.

(** The elements [for x in v] visits. *)
Definition py_iter (v : JSON) : Res (list JSON) :=
  match v with
  | JArray l => Ok l
  | JObject o => Ok (map JString (dict_keys o))
  | JString s => Ok (str_chars s)
  | _ => Raise (TypeError "iter" v)
  end.

Definition hashable (v : JSON) : bool :=
  match v with
  | JArray _ | JObject _ => false
  | _ => true
  end.

(** [set(v)], kept as the list of its elements: what matters below is
    membership.  A [list] or [dict] element is unhashable. *)
Definition py_set (v : JSON) : Res (list JSON) :=
  res_bind (py_iter v) (fun xs =>
    match find (fun x => negb (hashable x)) xs with
    | Some x => Raise (TypeError "hash" x)
    | None => Ok xs
    end).

(** [sep.join(parts)] when every part is a [str]. *)
Fixpoint join_with (sep : string) (parts : list string) : string :=
  match parts with
  | [] => ""
  | [p] => p
  | p :: rest => p +:+ sep +:+ join_with sep rest
  end.

(** The line feed. *)
Definition newline : string := String (ascii_of_nat 10) EmptyString.

(** [sep.join(items)]: every item must be a [str]. *)
Fixpoint str_join (sep : string) (items : list JSON) : Res string :=
  match items with
  | [] => Ok ""
  | JString s :: rest =>
      match rest with
      | [] => Ok s
      | _ => res_bind (str_join sep rest) (fun t => Ok (s +:+ sep +:+ t))
      end
  | x :: _ => Raise (TypeError "join" x)
  end.

(** ** The interpreter's library and the network *)

(** What becomes of a [write_text]: the text is written; or an exception
    is raised, on a directory that is missing, on a path that cannot be
    written, on a disk that is full, and the path is left as it was
    ([None]) or holding what got through ([Some]). *)
Inductive WriteOutcome : Type :=
| Written
| WriteFailed (e : PyExc) (remains : option string).

(** Library functions the scripts call and do not define. *)
Class PyLib : Type := {
  (** [json.loads]; [None] is [json.JSONDecodeError]. *)
  json_loads : string -> option JSON;
  (** [json.dumps(v, indent=2)]. *)
  json_dumps_indent2 : JSON -> string;
  (** [yaml.dump(v, allow_unicode=True, default_flow_style=False)]. *)
  yaml_dump : JSON -> string;
  (** Whether [import yaml] succeeds. *)
  yaml_importable : bool;
  (** [repr(v)], which is what [str(v)] and an f-string give for a value
      that is not a [str]. *)
  py_repr : JSON -> string;
  (** [str(e)] for an exception the interpreter or a library raised. *)
  builtin_message : PyExc -> string;
  (** [s.rstrip()]. *)
  str_rstrip : string -> string;
  (** [pathlib]'s [dir / name], as text. *)
  path_div : string -> string -> string;
  (** [Path.write_text]: what becomes of writing a text to a path, given
      the files and the directories there are. *)
  path_write_text : gmap string string -> gset string -> string -> string -> WriteOutcome;
  (** [Path.mkdir(exist_ok=True)]: the exception it raises, if any, given
      the files and the directories there are. *)
  path_mkdir : gmap string string -> gset string -> string -> option PyExc;
  (** [os.path.dirname(os.path.abspath(__file__))]. *)
  SCRIPT_DIR : string
}.

(** What [urllib.request.Request(...)] is built from. *)
Record Request : Type := {
  full_url : JSON;
  req_data : JSON;
  req_headers : gmap string (option string);
  req_method : string
}.

(** What [urlopen] gives back: [dict(response.headers)] and the decoded
    text of the body; or the exception [urllib] raised, be it on a URL it
    cannot use, on the connection, on the status of the answer or while
    reading it. *)
Inductive HttpReply : Type :=
| Response (response_headers : gmap string string) (text : string)
| Failure (e : PyExc).

(** The other end of the wire: any state machine. *)
Class Network : Type := {
  Server : Type;
  urlopen : Server -> Request -> HttpReply * Server
}.

(** The process and its surroundings.  [wire] lists, oldest first, every
    request the process built and handed to [urllib], whether or not it
    reached the server; [files] is the content of the files by path, and
    [dirs] the directories there are. *)
Record World `{Network} : Type := {
  remote : Server;
  wire : list Request;
  stdout : list string;
  stderr : list string;
  files : gmap string string;
  dirs : gset string
}.

Section Process.
Context `{PyLib} `{Network}.

Definition print (line : string) : M World unit :=
  modify (fun w =>
    {| remote := remote w; wire := wire w; stdout := stdout w ++ [line];
       stderr := stderr w; files := files w; dirs := dirs w |}).

(** The world with [content] at [path]. *)
Definition holding (w : World) (path content : string) : World :=
  {| remote := remote w; wire := wire w; stdout := stdout w;
     stderr := stderr w; files := <[path := content]> (files w); dirs := dirs w |}.

(** [path.write_text(content)]: the text replaces what the path held, or
    the exception is raised and the path is as the failure left it. *)
Definition write_text (path content : string) : M World unit :=
  fun w =>
    match path_write_text (files w) (dirs w) path content with
    | Written => (Ok tt, holding w path content)
    | WriteFailed e None => (Raise e, w)
    | WriteFailed e (Some partial) => (Raise e, holding w path partial)
    end.

(** [path.mkdir(exist_ok=True)]: the directory is there afterwards, or
    the exception is raised. *)
Definition mkdir (path : string) : M World unit :=
  fun w =>
    match path_mkdir (files w) (dirs w) path with
    | Some e => (Raise e, w)
    | None =>
        (Ok tt,
         {| remote := remote w; wire := wire w; stdout := stdout w;
            stderr := stderr w; files := files w; dirs := {[ path ]} ∪ dirs w |})
    end.

(** [str(v)], also the [{v}] of an f-string. *)
Definition py_str (v : JSON) : string :=
  match v with
  | JString s => s
  | _ => py_repr v
  end.

(** [str(e)]. *)
Definition exc_str (e : PyExc) : string :=
  match e with
  | Exception msg => msg
  | _ => builtin_message e
  end.

Definition exc_class (e : PyExc) : string :=
  match e with
  | Exception _ => "Exception"
  | KeyError _ => "KeyError"
  | TypeError _ _ => "TypeError"
  | AttributeError _ _ => "AttributeError"
  | JSONDecodeError _ => "json.decoder.JSONDecodeError"
  | URLError _ => "urllib.error.URLError"
  | HTTPError _ _ => "urllib.error.HTTPError"
  | ValueError _ => "ValueError"
  | OSError _ => "OSError"
  end.

(** [posixpath.join(a, b)]. *)
Definition os_path_join (a b : string) : string :=
  if str_prefix "/" b then b
  else if String.eqb a "" then b
  else if String.eqb (substring (String.length a - 1) 1 a) "/" then a +:+ b
  else a +:+ "/" +:+ b.

(** [load_config()], the same in both scripts. *)
Definition load_config : M World JSON :=
  fun w =>
    let config_path := os_path_join SCRIPT_DIR "mcp-config.json" in
    match files w !! config_path with
    | None => (Raise (OSError config_path), w)
    | Some text =>
        match json_loads text with
        | Some v => (Ok v, w)
        | None => (Raise (JSONDecodeError text), w)
        end
    end.

(** Running a script to the end: the exit status, and the last line of
    the traceback on standard error when an exception was not caught. *)
Definition run_script (script : M World unit) (w : World) : Z * World :=
  match script w with
  | (Ok _, w') => (0, w')
  | (Exit c, w') => (c, w')
  | (Raise e, w') =>
      (1, {| remote := remote w'; wire := wire w'; stdout := stdout w';
             stderr := stderr w' ++ [exc_class e +:+ ": " +:+ exc_str e];
             files := files w'; dirs := dirs w' |})
  end.
End Process.

(** ** [class MCPClient]

    The class is written out in both scripts; the two copies differ in one
    string, the client name sent by [initialize]. *)
Module MCPClient.

(** [base_url] is whatever the caller passed, for both scripts the
    ["url"] member of a server of the configuration: a decoded value, not
    necessarily a [str].  [session_id] is [None] or a [str]. *)
Record t : Type := { base_url : JSON; session_id : option string }.

Definition __init__ (base_url : JSON) : t :=
  {| base_url := base_url; session_id := None |}.

Section Methods.
Context `{PyLib} `{Network}.
Variable client_name : string.

(** A method runs on [self] and the world. *)
Definition St : Type := t * World.

Definition set_session_id (sid : option string) : M St unit :=
  modify (fun st : St => ({| base_url := base_url st.1; session_id := sid |}, st.2)).

(** The request [_post] builds: the content type, overridden by
    [headers] when the caller gave some. *)
Definition request_for (self : t) (data : JSON)
    (headers : option (gmap string (option string))) : Request :=
  let content_type : gmap string (option string) :=
    {[ "Content-Type" := Some "application/json" ]} in
  let req_headers :=
    match headers with
    | Some h => if decide (h = ∅) then content_type else h ∪ content_type
    | None => content_type
    end in
  {| full_url := base_url self; req_data := data;
     req_headers := req_headers; req_method := "POST" |}.

(** The world once [request] went out and the server moved on. *)
Definition sent (w : World) (request : Request) (remote' : Server) : World :=
  {| remote := remote'; wire := wire w ++ [request];
     stdout := stdout w; stderr := stderr w; files := files w; dirs := dirs w |}.

(** [dict(response.headers)] and [json.loads(response.read().decode())]. *)
Definition read_response (reply : HttpReply) : Res (JSON * gmap string string) :=
  match reply with
  | Failure e => Raise e
  | Response response_headers text =>
      match json_loads text with
      | Some body => Ok (body, response_headers)
      | None => Raise (JSONDecodeError text)
      end
  end.

Definition _post (data : JSON) (headers : option (gmap string (option string)))
  : M St (JSON * gmap string string) :=
  fun st =>
    let request := request_for st.1 data headers in
    let (reply, remote') := urlopen (remote st.2) request in
    (read_response reply, (st.1, sent st.2 request remote')).

Definition initialize_request : JSON :=
  JObject
    [("jsonrpc", JString "2.0");
     ("id", JInt 1);
     ("method", JString "initialize");
     ("params", JObject
        [("protocolVersion", JString "2024-11-05");
         ("capabilities", JObject []);
         ("clientInfo", JObject
            [("name", JString client_name);
             ("version", JString "1.0.0")])])].

Definition initialize : M St JSON :=
  (r <- _post initialize_request None ;;
   set_session_id (r.2 !! "Mcp-Session-Id") ;;;
   st <- get ;;
   if negb (truthy_opt (session_id st.1))
   then raise (Exception "No session ID in response")
   else ret r.1)%py.

(** [if not self.session_id: self.initialize()], the opening of
    [call_tool] and of [list_tools]. *)
Definition ensure_session : M St unit :=
  (st <- get ;;
   if negb (truthy_opt (session_id st.1))
   then (initialize ;;; ret tt)
   else ret tt)%py.

(** The headers argument [{"Mcp-Session-Id": self.session_id}]. *)
Definition session_header (self : t) : gmap string (option string) :=
  {[ "Mcp-Session-Id" := session_id self ]}.
End Methods.

(** Running a method of a client the caller holds. *)
Definition on_client `{Network} {A} (self : t) (m : M (t * World) A) : M World A :=
  fun w => let (r, st) := m (self, w) in (r, st.2).
End MCPClient.

(** ** [executor.py] *)
Module Executor.
Section Script.
Context `{PyLib} `{Network}.

Definition dq : string := String (ascii_of_nat 34) EmptyString.

(** The module docstring, line by line. *)
Definition __doc__ : string :=
  join_with newline
    [""; "MCP Tool Executor - Zero-token execution script";
     "";
     "Usage:";
     "    python executor.py <mcp_name> <tool_name> <json_params>";
     "";
     "Example:";
     "    python executor.py github-mcp create_issue '{" +:+ dq +:+ "repo" +:+ dq +:+ ": "
       +:+ dq +:+ "owner/repo" +:+ dq +:+ ", " +:+ dq +:+ "title" +:+ dq +:+ ": "
       +:+ dq +:+ "Test" +:+ dq +:+ "}'";
     ""].

Definition initialize : M MCPClient.St JSON := MCPClient.initialize "mcp-executor".

Definition tools_call_request (tool_name : string) (params : JSON) : JSON :=
  JObject
    [("jsonrpc", JString "2.0");
     ("id", JInt 2);
     ("method", JString "tools/call");
     ("params", JObject
        [("name", JString tool_name);
         ("arguments", params)])].

Definition call_tool (tool_name : string) (params : JSON) : M MCPClient.St JSON :=
  (MCPClient.ensure_session "mcp-executor" ;;;
   st <- get ;;
   r <- MCPClient._post (tools_call_request tool_name params)
          (Some (MCPClient.session_header st.1)) ;;
   ret r.1)%py.

(** The body of [if __name__ == "__main__":]; [argv] is [sys.argv]. *)
Definition main (argv : list string) : M World unit :=
  ((if negb (length argv =? 4)%nat
    then (print __doc__ ;;; sys_exit 1)
    else ret tt) ;;;
   let mcp_name := nth 1 argv "" in
   let tool_name := nth 2 argv "" in
   params <- lift (match json_loads (nth 3 argv "") with
                   | Some v => Ok v
                   | None => Raise (JSONDecodeError (nth 3 argv ""))
                   end) ;;
   config <- load_config ;;
   servers <- lift (py_getitem config "mcpServers") ;;
   server <- lift (py_getitem servers mcp_name) ;;
   mcp_url <- lift (py_getitem server "url") ;;
   let client := MCPClient.__init__ mcp_url in
   result <- MCPClient.on_client client (call_tool tool_name params) ;;
   print (json_dumps_indent2 result))%py.
End Script.
End Executor.

(** ** [refresh_tool_docs.py] *)
Module RefreshToolDocs.
Section Script.
Context `{PyLib} `{Network}.

Definition HAS_YAML : bool := yaml_importable.

Definition initialize : M MCPClient.St JSON :=
  MCPClient.initialize "refresh-tool-docs".

Definition tools_list_request : JSON :=
  JObject
    [("jsonrpc", JString "2.0");
     ("id", JInt 2);
     ("method", JString "tools/list");
     ("params", JObject [])].

Definition list_tools : M MCPClient.St JSON :=
  (MCPClient.ensure_session "refresh-tool-docs" ;;;
   st <- get ;;
   r <- MCPClient._post tools_list_request
          (Some (MCPClient.session_header st.1)) ;;
   let body := r.1 in
   has_error <- lift (py_in "error" body) ;;
   (if has_error : bool
    then (err <- lift (py_getitem body "error") ;;
          raise (Exception ("MCP error: " +:+ py_str err)))
    else ret tt) ;;;
   result <- lift (py_get body "result" (JObject [])) ;;
   lift (py_get result "tools" (JArray [])))%py.

Definition fetch_tools (mcp_url : JSON) : M World JSON :=
  let client := MCPClient.__init__ mcp_url in
  MCPClient.on_client client list_tools.

(** One turn of the loop of [convert_schema_to_yaml_params]: the record
    built for the parameter [name]. *)
Definition convert_param (required : list JSON) (name : string) (prop : JSON)
  : Res JSON :=
  (ty <- py_get prop "type" (JString "string") ;;
   let param : pydict := [("type", ty)] in
   has_description <- py_in "description" prop ;;
   param <- (if has_description : bool
             then (d <- py_getitem prop "description" ;;
                   Ok (dict_set "desc" d param))
             else Ok param) ;;
   has_enum <- py_in "enum" prop ;;
   param <- (if has_enum : bool
             then (e <- py_getitem prop "enum" ;;
                   Ok (dict_set "enum" e param))
             else Ok param) ;;
   has_default <- py_in "default" prop ;;
   param <- (if has_default : bool
             then (d <- py_getitem prop "default" ;;
                   Ok (dict_set "default" d param))
             else Ok param) ;;
   let param :=
     if existsb (eq_str name) required
     then dict_set "required" (JBool true) param
     else param in
   Ok (JObject param))%res.

(** The loop [for name, prop in props.items()], with [params] the
    dictionary built so far. *)
Fixpoint convert_loop (required : list JSON) (items params : pydict)
  : Res pydict :=
  match items with
  | [] => Ok params
  | (name, prop) :: rest =>
      (param <- convert_param required name prop ;;
       convert_loop required rest (dict_set name param params))%res
  end.

Definition convert_schema_to_yaml_params (input_schema : JSON) : Res JSON :=
  (props <- py_get input_schema "properties" (JObject []) ;;
   required_list <- py_get input_schema "required" (JArray []) ;;
   required <- py_set required_list ;;
   items <- py_items props ;;
   params <- convert_loop required items [] ;;
   Ok (JObject params))%res.

(** What one turn of [for tool in tools] appends to [lines]. *)
Definition tool_lines (tool : JSON) : Res (list JSON) :=
  (name <- py_getitem tool "name" ;;
   let lines := [JString ("## " +:+ py_str name); JString ""] in
   description <- py_get tool "description" JNull ;;
   lines <- (if truthy description
             then (d <- py_getitem tool "description" ;;
                   Ok (lines ++ [d; JString ""])%list)
             else Ok lines) ;;
   input_schema <- py_get tool "inputSchema" (JObject []) ;;
   properties <- py_get input_schema "properties" JNull ;;
   if truthy properties
   then
     (block <-
        (if HAS_YAML
         then (params <- convert_schema_to_yaml_params input_schema ;;
               Ok [JString "```yaml";
                   JString (str_rstrip (yaml_dump params))])
         else Ok [JString "```json";
                  JString (json_dumps_indent2 input_schema)]) ;;
      Ok (lines ++ [JString "**Params:**"] ++ block
                ++ [JString "```"; JString ""])%list)
   else Ok lines)%res.

Fixpoint tools_lines (tools : list JSON) : Res (list JSON) :=
  match tools with
  | [] => Ok []
  | tool :: rest =>
      (here <- tool_lines tool ;;
       after <- tools_lines rest ;;
       Ok (here ++ after)%list)%res
  end.

(** The text [write_tools_md] writes. *)
Definition tools_md (mcp_name : string) (tools : JSON) : Res string :=
  (items <- py_iter tools ;;
   body <- tools_lines items ;;
   let lines := ([JString ("# " +:+ mcp_name +:+ " Tools"); JString ""] ++ body)%list in
   str_join newline lines)%res.

Definition write_tools_md (mcp_name : string) (tools : JSON) (output_dir : string)
  : M World unit :=
  (content <- lift (tools_md mcp_name tools) ;;
   let output_path := path_div output_dir (mcp_name +:+ ".md") in
   write_text output_path content ;;;
   print ("Updated: " +:+ output_path))%py.

(** The body of the loop of the main block, [try] and [except]. *)
Definition refresh_server (tools_dir mcp_name : string) (server : JSON)
  : M World unit :=
  try_except
    (mcp_url <- lift (py_getitem server "url") ;;
     tools <- fetch_tools mcp_url ;;
     write_tools_md mcp_name tools tools_dir)%py
    (fun e =>
       print ("Error fetching tools for " +:+ mcp_name +:+ ": " +:+ exc_str e)).

Fixpoint refresh_servers (tools_dir : string) (servers : pydict) : M World unit :=
  match servers with
  | [] => ret tt
  | (mcp_name, server) :: rest =>
      (refresh_server tools_dir mcp_name server ;;;
       refresh_servers tools_dir rest)%py
  end.

(** The body of [if __name__ == "__main__":]. *)
Definition main : M World unit :=
  (config <- load_config ;;
   let tools_dir := path_div SCRIPT_DIR "tools" in
   mkdir tools_dir ;;;
   mcp_servers <- lift (py_getitem config "mcpServers") ;;
   servers <- lift (py_items mcp_servers) ;;
   refresh_servers tools_dir servers ;;;
   print "Tool docs refreshed")%py.
End Script.
End RefreshToolDocs.

(** ** A concrete interpreter and a stub server

    One implementation of [PyLib] and one of [Network], small enough to
    evaluate, on which the statements below are instantiated.  The decoder
    reads the JSON texts the stub server and the sample configuration use:
    objects, arrays, strings without escapes, integers, [true], [false],
    [null]. *)
Module Sample.

Definition is_space (c : ascii) : bool :=
  let n := nat_of_ascii c in
  ((n =? 32) || (n =? 9) || (n =? 10) || (n =? 13))%nat.

Definition is_digit (c : ascii) : bool :=
  let n := nat_of_ascii c in
  ((48 <=? n) && (n <=? 57))%nat.

Fixpoint skip_space (s : string) : string :=
  match s with
  | String c s' => if is_space c then skip_space s' else s
  | EmptyString => s
  end.

Fixpoint read_digits (s : string) (acc : Z) : Z * string :=
  match s with
  | String c s' =>
      if is_digit c
      then read_digits s' (acc * 10 + Z.of_nat (nat_of_ascii c - 48))
      else (acc, s)
  | EmptyString => (acc, s)
  end.

(** The characters up to the closing quote, and what follows it. *)
Fixpoint read_string (s : string) : option (string * string) :=
  match s with
  | EmptyString => None
  | String c s' =>
      if Ascii.eqb c (ascii_of_nat 34) then Some (EmptyString, s')
      else if Ascii.eqb c (ascii_of_nat 92) then None
      else match read_string s' with
           | Some (t, r) => Some (String c t, r)
           | None => None
           end
  end.

Definition read_literal (lit : string) (v : JSON) (s : string) : option (JSON * string) :=
  if str_prefix lit s
  then Some (v, substring (String.length lit) (String.length s) s)
  else None.

Fixpoint read_value (fuel : nat) (s : string) : option (JSON * string) :=
  match fuel with
  | O => None
  | S fuel' =>
      match skip_space s with
      | EmptyString => None
      | String c s' =>
          let n := nat_of_ascii c in
          if (n =? 34)%nat then
            match read_string s' with
            | Some (t, r) => Some (JString t, r)
            | None => None
            end
          else if (n =? 45)%nat then
            match s' with
            | String d _ =>
                if is_digit d
                then let (z, r) := read_digits s' 0 in Some (JInt (- z), r)
                else None
            | EmptyString => None
            end
          else if is_digit c then
            let (z, r) := read_digits (String c s') 0 in Some (JInt z, r)
          else if (n =? 91)%nat then
            match skip_space s' with
            | String e r0 =>
                if (nat_of_ascii e =? 93)%nat then Some (JArray [], r0)
                else
                  (fix elements (k : nat) (t : string) (acc : list JSON) :=
                     match k with
                     | O => None
                     | S k' =>
                         match read_value fuel' t with
                         | Some (v, r) =>
                             match skip_space r with
                             | String d r' =>
                                 if (nat_of_ascii d =? 44)%nat
                                 then elements k' r' (acc ++ [v])%list
                                 else if (nat_of_ascii d =? 93)%nat
                                 then Some (JArray (acc ++ [v])%list, r')
                                 else None
                             | EmptyString => None
                             end
                         | None => None
                         end
                     end) fuel' s' []
            | EmptyString => None
            end
          else if (n =? 123)%nat then
            match skip_space s' with
            | String e r0 =>
                if (nat_of_ascii e =? 125)%nat then Some (JObject [], r0)
                else
                  (fix members (k : nat) (t : string) (acc : pydict) :=
                     match k with
                     | O => None
                     | S k' =>
                         match skip_space t with
                         | String q t1 =>
                             if (nat_of_ascii q =? 34)%nat then
                               match read_string t1 with
                               | Some (key, t2) =>
                                   match skip_space t2 with
                                   | String colon t3 =>
                                       if (nat_of_ascii colon =? 58)%nat then
                                         match read_value fuel' t3 with
                                         | Some (v, r) =>
                                             match skip_space r with
                                             | String d r' =>
                                                 if (nat_of_ascii d =? 44)%nat
                                                 then members k' r' (dict_set key v acc)
                                                 else if (nat_of_ascii d =? 125)%nat
                                                 then Some (JObject (dict_set key v acc), r')
                                                 else None
                                             | EmptyString => None
                                             end
                                         | None => None
                                         end
                                       else None
                                   | EmptyString => None
                                   end
                               | None => None
                               end
                             else None
                         | EmptyString => None
                         end
                     end) fuel' s' []
            | EmptyString => None
            end
          else
            match read_literal "true" (JBool true) (String c s') with
            | Some r => Some r
            | None =>
                match read_literal "false" (JBool false) (String c s') with
                | Some r => Some r
                | None => read_literal "null" JNull (String c s')
                end
            end
      end
  end.

Definition loads (s : string) : option JSON :=
  match read_value (S (String.length s)) s with
  | Some (v, r) =>
      match skip_space r with
      | EmptyString => Some v
      | _ => None
      end
  | None => None
  end.

Definition quoted (s : string) : string :=
  String (ascii_of_nat 34) s +:+ String (ascii_of_nat 34) EmptyString.

(** A compact serializer; it stands in for all of [json.dumps],
    [yaml.dump] and [repr] in the sample interpreter. *)
Fixpoint dumps (v : JSON) : string :=
  match v with
  | JNull => "null"
  | JBool true => "true"
  | JBool false => "false"
  | JInt z => NilZero.string_of_int (Z.to_int z)
  | JFloat _ => "0.0"
  | JString s => quoted s
  | JArray l => "[" +:+ join_with ", " (map dumps l) +:+ "]"
  | JObject o =>
      "{" +:+ join_with ", "
                (map (fun kv => quoted kv.1 +:+ ": " +:+ dumps kv.2) o) +:+ "}"
  end.

Fixpoint rstrip_rev (s : list ascii) : list ascii :=
  match s with
  | c :: s' => if is_space c then rstrip_rev s' else s
  | [] => []
  end.

Definition rstrip (s : string) : string :=
  string_of_list_ascii (rev (rstrip_rev (rev (list_ascii_of_string s)))).

(** The directory of a path: what precedes its last [/]. *)
Fixpoint drop_last_component (reversed : list ascii) : list ascii :=
  match reversed with
  | [] => []
  | c :: rest =>
      if (nat_of_ascii c =? 47)%nat then rest else drop_last_component rest
  end.

Definition parent_of (path : string) : string :=
  string_of_list_ascii (rev (drop_last_component (rev (list_ascii_of_string path)))).

(** A disk on which a file can be written when its directory is there
    and the path is not itself a directory. *)
Definition disk_write_text (files : gmap string string) (dirs : gset string)
    (path content : string) : WriteOutcome :=
  if bool_decide (path ∈ dirs) then WriteFailed (OSError path) None
  else if bool_decide (parent_of path ∈ dirs) then Written
  else WriteFailed (OSError path) None.

(** On it a directory can be made when it is there already, or when its
    parent is and no file has its name. *)
Definition disk_mkdir (files : gmap string string) (dirs : gset string)
    (path : string) : option PyExc :=
  if bool_decide (path ∈ dirs) then None
  else match files !! path with
       | Some _ => Some (OSError path)
       | None =>
           if bool_decide (parent_of path ∈ dirs) then None
           else Some (OSError path)
       end.

#[export] Instance py : PyLib := {|
  json_loads := loads;
  json_dumps_indent2 := dumps;
  yaml_dump := dumps;
  yaml_importable := true;
  py_repr := dumps;
  builtin_message := fun e =>
    match e with
    | KeyError k => "'" +:+ k +:+ "'"
    | HTTPError code msg =>
        "HTTP Error " +:+ NilZero.string_of_int (Z.to_int code) +:+ ": " +:+ msg
    | URLError reason => "<urlopen error " +:+ reason +:+ ">"
    | JSONDecodeError _ => "Expecting value"
    | _ => "error"
    end;
  str_rstrip := rstrip;
  path_div := fun dir name => dir +:+ "/" +:+ name;
  path_write_text := disk_write_text;
  path_mkdir := disk_mkdir;
  SCRIPT_DIR := "/skill"
|}.

Definition method_of (r : Request) : string :=
  match r.(req_data) with
  | JObject o =>
      match dict_lookup "method" o with
      | Some (JString m) => m
      | _ => ""
      end
  | _ => ""
  end.

Definition echo_tool : JSON :=
  JObject
    [("name", JString "echo");
     ("description", JString "Echo the text back");
     ("inputSchema", JObject
        [("type", JString "object");
         ("properties", JObject
            [("text", JObject [("type", JString "string")]);
             ("times", JObject [("type", JString "integer"); ("default", JInt 1)])]);
         ("required", JArray [JString "text"])])].

Definition ping_tool : JSON := JObject [("name", JString "ping")].

(** The schema with properties [a] and [b] and required list [["a"]]. *)
Definition ab_schema : JSON :=
  JObject
    [("properties", JObject
        [("a", JObject [("type", JString "string")]);
         ("b", JObject [("type", JString "integer"); ("default", JInt 5)])]);
     ("required", JArray [JString "a"])].

(** A tool without a name, and a tool one of whose properties is not a
    dictionary. *)
Definition nameless_tool : JSON :=
  JObject [("description", JString "a tool that forgot its name")].

Definition oddprops_tool : JSON :=
  JObject
    [("name", JString "t");
     ("inputSchema", JObject [("properties", JObject [("a", JBool true)])])].

Definition rpc_error : JSON :=
  JObject [("code", JInt (-32601)); ("message", JString "Method not found")].

(** The stub answers by URL and method, and counts the requests it saw.
    - [http://good/mcp] follows the protocol and exposes two tools;
    - [http://down/mcp] answers 500 to everything;
    - [http://nosid/mcp] answers [initialize] without a session header;
    - [http://blanksid/mcp] answers it with an empty session header;
    - [http://err/mcp] answers every call with a JSON-RPC error;
    - [http://bare/mcp] answers every call with the empty object;
    - [http://junk/mcp] answers every call with text that is not JSON;
    - [http://lowersid/mcp] names the session header in lower case;
    - [http://nameless/mcp] lists one tool, which has no name;
    - [http://oddprops/mcp] lists one tool, whose schema has a property
      that is [true]. *)
Definition stub (seen : nat) (r : Request) : HttpReply * nat :=
  let sid : gmap string string := {[ "Mcp-Session-Id" := "sess-1" ]} in
  let init_body := dumps (JObject [("jsonrpc", JString "2.0"); ("id", JInt 1);
                                   ("result", JObject [])]) in
  let is_init := String.eqb (method_of r) "initialize" in
  let reply :=
    match r.(full_url) with
    | JString "http://good/mcp" =>
        if is_init then Response sid init_body
        else if String.eqb (method_of r) "tools/list" then
          Response ∅ (dumps (JObject [("jsonrpc", JString "2.0"); ("id", JInt 2);
                                      ("result", JObject
                                         [("tools", JArray [echo_tool; ping_tool])])]))
        else
          Response ∅ (dumps (JObject [("jsonrpc", JString "2.0"); ("id", JInt 2);
                                      ("result", JObject
                                         [("content", JArray [JString "pong"])])]))
    | JString "http://down/mcp" => Failure (HTTPError 500 "Internal Server Error")
    | JString "http://nosid/mcp" => Response ∅ init_body
    | JString "http://blanksid/mcp" =>
        Response {[ "Mcp-Session-Id" := "" ]} init_body
    | JString "http://err/mcp" =>
        if is_init then Response sid init_body
        else Response ∅ (dumps (JObject [("jsonrpc", JString "2.0"); ("id", JInt 2);
                                         ("error", rpc_error)]))
    | JString "http://bare/mcp" =>
        if is_init then Response sid init_body else Response ∅ "{}"
    | JString "http://junk/mcp" =>
        if is_init then Response sid init_body else Response ∅ "<html>"
    | JString "http://lowersid/mcp" =>
        Response {[ "mcp-session-id" := "sess-1" ]} init_body
    | JString "http://nameless/mcp" =>
        if is_init then Response sid init_body
        else Response ∅ (dumps (JObject [("jsonrpc", JString "2.0"); ("id", JInt 2);
                                         ("result", JObject
                                            [("tools", JArray [nameless_tool])])]))
    | JString "http://oddprops/mcp" =>
        if is_init then Response sid init_body
        else Response ∅ (dumps (JObject [("jsonrpc", JString "2.0"); ("id", JInt 2);
                                         ("result", JObject
                                            [("tools", JArray [oddprops_tool])])]))
    | _ => Failure (URLError "unknown host")
    end in
  (reply, S seen).

#[export] Instance net : Network := {| Server := nat; urlopen := stub |}.

Definition server_entry (url : string) : JSON := JObject [("url", JString url)].

Definition config : JSON :=
  JObject
    [("mcpServers", JObject
        [("down", server_entry "http://down/mcp");
         ("good", server_entry "http://good/mcp")])].

(** A fresh process: nothing sent, nothing printed, and the
    configuration file next to the script. *)
Definition world0 : World :=
  {| remote := 0%nat; wire := []; stdout := []; stderr := [];
     files := {[ "/skill/mcp-config.json" := dumps config ]};
     dirs := {[ "/skill" ]} |}.


Definition client (url : string) : MCPClient.t := MCPClient.__init__ (JString url).


Definition session_headers : gmap string string := {[ "Mcp-Session-Id" := "sess-1" ]}.
Definition blank_headers : gmap string string := {[ "Mcp-Session-Id" := "" ]}.
Definition lower_headers : gmap string string := {[ "mcp-session-id" := "sess-1" ]}.

Definition handshake_text : string :=
  dumps (JObject [("jsonrpc", JString "2.0"); ("id", JInt 1); ("result", JObject [])]).

Definition handshake_body : JSON :=
  JObject [("jsonrpc", JString "2.0"); ("id", JInt 1); ("result", JObject [])].

Definition error_body : pydict :=
  [("jsonrpc", JString "2.0"); ("id", JInt 2); ("error", rpc_error)].

(** A client of the given server once its session stands. *)
Definition in_session (client_name url : string) : MCPClient.St :=
  (MCPClient.ensure_session client_name (client url, world0)).2.
(** A process whose configuration file is missing. *)
Definition world_without_config : World :=
  {| remote := 0%nat; wire := []; stdout := []; stderr := []; files := ∅;
     dirs := {[ "/skill" ]} |}.

(** A process configured with the server that answers calls with a
    JSON-RPC error. *)
Definition err_config : JSON :=
  JObject [("mcpServers", JObject [("err", server_entry "http://err/mcp")])].

Definition world_err : World :=
  {| remote := 0%nat; wire := []; stdout := []; stderr := [];
     files := {[ "/skill/mcp-config.json" := dumps err_config ]};
     dirs := {[ "/skill" ]} |}.

(** A process given any configuration, next to the script. *)
Definition world_of (configuration : JSON) : World :=
  {| remote := 0%nat; wire := []; stdout := []; stderr := [];
     files := {[ "/skill/mcp-config.json" := dumps configuration ]};
     dirs := {[ "/skill" ]} |}.



(** The well-behaved server under a name with a [/] in it. *)
Definition slash_servers : pydict := [("a/b", server_entry "http://good/mcp")].

Definition slash_config : JSON := JObject [("mcpServers", JObject slash_servers)].

(** A process in whose directory [tools] is a regular file. *)
Definition world_tools_is_a_file : World :=
  {| remote := 0%nat; wire := []; stdout := []; stderr := [];
     files := <[ "/skill/tools" := "not a directory" ]>
                {[ "/skill/mcp-config.json" := dumps config ]};
     dirs := {[ "/skill" ]} |}.
End Sample.

(** ** Vocabulary of the statements *)

Definition is_dict (v : JSON) : bool :=
  match v with JObject _ => true | _ => false end.


(** The ["properties"] of an input schema, as [props.items()] visits
    them; none when the member is missing. *)
Definition schema_properties (input_schema : JSON) : pydict :=
  match input_schema with
  | JObject o =>
      match dict_lookup "properties" o with
      | Some (JObject props) => props
      | _ => []
      end
  | _ => []
  end.

(** Whether [name in required], for the [required] set of the schema. *)
Definition schema_requires (name : string) (input_schema : JSON) : bool :=
  match input_schema with
  | JObject o =>
      match dict_lookup "required" o with
      | Some r =>
          match py_iter r with
          | Ok xs => existsb (eq_str name) xs
          | _ => false
          end
      | None => false
      end
  | _ => false
  end.

(** The schemas [convert_schema_to_yaml_params] returns on: a dictionary
    whose ["properties"], when present, is a dictionary of dictionaries,
    and whose ["required"], when present, is something [set()] accepts. *)
Definition schema_ok (input_schema : JSON) : bool :=
  match input_schema with
  | JObject o =>
      match dict_lookup "properties" o with
      | None => true
      | Some (JObject props) => forallb (fun kv => is_dict kv.2) props
      | Some _ => false
      end
      &&
      match dict_lookup "required" o with
      | None => true
      | Some (JArray l) => forallb hashable l
      | Some (JObject _) | Some (JString _) => true
      | Some _ => false
      end
  | _ => false
  end.


(** A computation that does not end in [SystemExit]. *)
Definition never_exits {S A} (m : M S A) : Prop :=
  forall s c, (m s).1 <> Exit c.

Definition res_never_exits {A} (r : Res A) : Prop :=
  forall c, r <> Exit c.

Section Vocabulary.
Context `{PyLib} `{Network}.




(** What a call on [self] puts on the wire, for a client named
    [client_name] whose call sends [data].  With a session id in hand,
    the call's request alone, under that id.  Without one, the handshake
    first; then either nothing more, the client still without a usable
    id, or the call's request under the id the handshake stored. *)
Definition wire_after_call (client_name : string) (data : JSON)
    (self : MCPClient.t) (w : World) (self' : MCPClient.t) (w' : World) : Prop :=
  let handshake :=
    MCPClient.request_for self (MCPClient.initialize_request client_name) None in
  if truthy_opt (MCPClient.session_id self)
  then self' = self /\
       wire w' = (wire w ++ [MCPClient.request_for self data
                               (Some (MCPClient.session_header self))])%list
  else (wire w' = (wire w ++ [handshake])%list /\
        truthy_opt (MCPClient.session_id self') = false) \/
       (truthy_opt (MCPClient.session_id self') = true /\
        wire w' = (wire w ++ [handshake;
                              MCPClient.request_for self' data
                                (Some (MCPClient.session_header self'))])%list).

(** The server's reply to the call [data] of a client in state [st]
    (the client and the world), sent under the client's session id. *)
Definition reply_to (st : MCPClient.St) (data : JSON) : HttpReply :=
  (urlopen (remote st.2)
     (MCPClient.request_for st.1 data (Some (MCPClient.session_header st.1)))).1.

(** The server's reply to the handshake of [self]. *)
Definition handshake_reply (client_name : string) (self : MCPClient.t) (w : World)
  : HttpReply :=
  (urlopen (remote w)
     (MCPClient.request_for self (MCPClient.initialize_request client_name) None)).1.
(** What [list_tools] makes of the decoded body of the reply: the lines
    of the method after its [_post]. *)
Definition listed (body : JSON) : Res JSON :=
  (has_error <- py_in "error" body ;;
   _ <- (if has_error : bool
         then (err <- py_getitem body "error" ;;
               Raise (Exception ("MCP error: " +:+ py_str err)))
         else Ok tt) ;;
   result <- py_get body "result" (JObject []) ;;
   py_get result "tools" (JArray []))%res.

End Vocabulary.


Section MoreVocabulary.
Context `{PyLib} `{Network}.

(** A request as [_post] sends it to [url]: a POST announcing JSON. *)
Definition posted_to (url : JSON) (q : Request) : Prop :=
  full_url q = url /\ req_method q = "POST" /\
  req_headers q !! "Content-Type" = Some (Some "application/json").


(** The keys a parameter record can have. *)
Definition param_keys : list string :=
  ["type"; "desc"; "enum"; "default"; "required"].

(** The world a script leaves when it dies of the exception [e]. *)
Definition died_of (e : PyExc) (w : World) : World :=
  {| remote := remote w; wire := wire w; stdout := stdout w;
     stderr := stderr w ++ [exc_class e +:+ ": " +:+ exc_str e];
     files := files w; dirs := dirs w |}.

(** The world once the directory [path] is there. *)
Definition with_dir (w : World) (path : string) : World :=
  {| remote := remote w; wire := wire w; stdout := stdout w;
     stderr := stderr w; files := files w; dirs := {[ path ]} ∪ dirs w |}.
End MoreVocabulary.

(** The name of a header, letter case set aside. *)
Definition ascii_lower (c : ascii) : ascii :=
  let n := nat_of_ascii c in
  if ((65 <=? n) && (n <=? 90))%nat then ascii_of_nat (n + 32) else c.

Fixpoint str_lower (s : string) : string :=
  match s with
  | EmptyString => EmptyString
  | String c s' => String (ascii_lower c) (str_lower s')
  end.

(** The answer carries a header of this name, however it spells it. *)
Definition header_sent (name : string) (headers : gmap string string) : Prop :=
  exists key value, headers !! key = Some value /\ str_lower key = str_lower name.

(** * Properties *)

(** ** The monad *)

Ltac unfold_py :=
  unfold bind, ret, raise, lift, get, modify, sys_exit, try_except, res_bind in *.

Section ClientFacts.
Context `{PyLib} `{Network}.
Variable client_name : string.

Lemma truthy_opt_true (s : option string) :
  truthy_opt s = true <-> exists sid, s = Some sid /\ sid <> "".
Proof.
  destruct s as [sid|]; simpl; split.
  - intros Hs. exists sid. split; [reflexivity|].
    intros ->. discriminate.
  - intros (sid' & [= <-] & Hne).
    destruct (String.eqb_spec sid ""); [contradiction | reflexivity].
  - discriminate.
  - intros (sid & Hsid & _). discriminate.
Qed.

Lemma truthy_opt_false (s : option string) :
  truthy_opt s = false <-> s = None \/ s = Some "".
Proof.
  destruct s as [sid|]; simpl; split; auto.
  - destruct (String.eqb_spec sid ""); [subst; auto | discriminate].
  - intros [Hs | [= ->]]; [discriminate | reflexivity].
Qed.

(** [_post] hands exactly one request to [urlopen] and leaves [self] as
    it was, whatever comes back. *)
Lemma post_unfold (self : MCPClient.t) (w : World) data headers :
  MCPClient._post data headers (self, w) =
    let request := MCPClient.request_for self data headers in
    (MCPClient.read_response (urlopen (remote w) request).1,
     (self, MCPClient.sent w request (urlopen (remote w) request).2)).
Proof.
  unfold MCPClient._post. simpl.
  destruct (urlopen (remote w) _) as [reply remote']. reflexivity.
Qed.

(** [initialize], step by step, on the reply the server gives. *)
Lemma initialize_unfold (self : MCPClient.t) (w : World) :
  let request := MCPClient.request_for self (MCPClient.initialize_request client_name) None in
  let w' := MCPClient.sent w request (urlopen (remote w) request).2 in
  MCPClient.initialize client_name (self, w) =
    match MCPClient.read_response (urlopen (remote w) request).1 with
    | Ok (body, headers) =>
        let sid := headers !! "Mcp-Session-Id" in
        let self' := {| MCPClient.base_url := MCPClient.base_url self;
                        MCPClient.session_id := sid |} in
        (if truthy_opt sid then Ok body
         else Raise (Exception "No session ID in response"),
         (self', w'))
    | Raise e => (Raise e, (self, w'))
    | Exit c => (Exit c, (self, w'))
    end.
Proof.
  intros request w'. unfold MCPClient.initialize, MCPClient.set_session_id.
  unfold_py. rewrite post_unfold. simpl. fold request. fold w'.
  destruct (MCPClient.read_response _) as [[body headers]| |]; try reflexivity.
  simpl. destruct (truthy_opt _); reflexivity.
Qed.
End ClientFacts.

Section SessionFacts.
Context `{PyLib} `{Network}.
Variable client_name : string.

Lemma ensure_session_unfold (self : MCPClient.t) (w : World) :
  MCPClient.ensure_session client_name (self, w) =
    if truthy_opt (MCPClient.session_id self) then (Ok tt, (self, w))
    else match MCPClient.initialize client_name (self, w) with
         | (Ok _, st) => (Ok tt, st)
         | (Raise e, st) => (Raise e, st)
         | (Exit c, st) => (Exit c, st)
         end.
Proof.
  unfold MCPClient.ensure_session. unfold_py. simpl.
  destruct (truthy_opt _); simpl; [reflexivity|].
  destruct (MCPClient.initialize _ _) as [[body| |] st]; reflexivity.
Qed.

(** The session header of a call carries [self.session_id] as it is, and
    the handshake carries none. *)
Lemma session_header_verbatim (self : MCPClient.t) data :
  req_headers (MCPClient.request_for self data (Some (MCPClient.session_header self)))
    !! "Mcp-Session-Id" = Some (MCPClient.session_id self).
Proof.
  unfold MCPClient.request_for, MCPClient.session_header. simpl.
  destruct (decide _) as [He|_].
  - exfalso. apply (f_equal (fun m => m !! "Mcp-Session-Id")) in He.
    rewrite lookup_singleton_eq, lookup_empty in He. discriminate.
  - apply lookup_union_Some_l, lookup_singleton_eq.
Qed.

Lemma handshake_has_no_session_header (self : MCPClient.t) data :
  req_headers (MCPClient.request_for self data None) !! "Mcp-Session-Id" = None.
Proof. reflexivity. Qed.

(** The opening of [call_tool] and [list_tools], followed by their one
    [_post]: which requests go out, and what [self] holds afterwards. *)
Lemma session_then_post (data : JSON) (self : MCPClient.t) (w : World) :
  let r := (MCPClient.ensure_session client_name ;;;
            st <- get ;;
            MCPClient._post data (Some (MCPClient.session_header st.1)))%py (self, w) in
  wire_after_call client_name data self w r.2.1 r.2.2 /\
  (forall x, r.1 = Ok x -> truthy_opt (MCPClient.session_id r.2.1) = true).
Proof.
  cbv zeta. unfold wire_after_call. unfold_py. rewrite ensure_session_unfold.
  destruct (truthy_opt (MCPClient.session_id self)) eqn:Hsid.
  - rewrite post_unfold. simpl. split; [split; reflexivity|].
    intros _ _. exact Hsid.
  - rewrite initialize_unfold.
    destruct (MCPClient.read_response _) as [[body headers]| |]; simpl.
    + destruct (truthy_opt (headers !! "Mcp-Session-Id")) eqn:Hnew; simpl.
      * rewrite post_unfold. simpl. split.
        -- right. split; [exact Hnew|]. rewrite <- app_assoc. reflexivity.
        -- intros _ _. exact Hnew.
      * split; [left; split; [reflexivity | exact Hnew] | discriminate].
    + split; [left; split; [reflexivity | exact Hsid] | discriminate].
    + split; [left; split; [reflexivity | exact Hsid] | discriminate].
Qed.
End SessionFacts.

(** ** The session client *)

Section ClientClaims.
Context `{PyLib} `{Network}.

Lemma call_tool_unfold tool_name params (st : MCPClient.St) :
  Executor.call_tool tool_name params st =
    let r := (MCPClient.ensure_session "mcp-executor" ;;;
              st <- get ;;
              MCPClient._post (Executor.tools_call_request tool_name params)
                (Some (MCPClient.session_header st.1)))%py st in
    (res_bind r.1 (fun x => Ok x.1), r.2).
Proof.
  unfold Executor.call_tool. unfold_py. cbv zeta.
  destruct (MCPClient.ensure_session _ st) as [[[]| |] st1]; try reflexivity.
  simpl. destruct (MCPClient._post _ _ st1) as [[x| |] st2]; reflexivity.
Qed.

Lemma list_tools_unfold (st : MCPClient.St) :
  RefreshToolDocs.list_tools st =
    let r := (MCPClient.ensure_session "refresh-tool-docs" ;;;
              st <- get ;;
              MCPClient._post RefreshToolDocs.tools_list_request
                (Some (MCPClient.session_header st.1)))%py st in
    (res_bind r.1 (fun x => listed x.1), r.2).
Proof.
  unfold RefreshToolDocs.list_tools, listed. unfold_py. cbv zeta.
  destruct (MCPClient.ensure_session _ st) as [[[]| |] st1]; try reflexivity.
  simpl. destruct (MCPClient._post _ _ st1) as [[x| |] st2]; try reflexivity.
  simpl. destruct (py_in "error" x.1) as [[|]| |]; try reflexivity.
  all: try (destruct (py_getitem x.1 "error"); reflexivity).
  all: try (destruct (py_get x.1 "result" _); try reflexivity;
            destruct (py_get _ "tools" _); reflexivity).
Qed.

(** Once the session stands, a call is its one [_post]. *)
Lemma call_after_session client_name data (st st1 : MCPClient.St) :
  MCPClient.ensure_session client_name st = (Ok tt, st1) ->
  ((MCPClient.ensure_session client_name ;;;
    st <- get ;;
    MCPClient._post data (Some (MCPClient.session_header st.1)))%py st).1
  = MCPClient.read_response (reply_to st1 data).
Proof.
  intros Hs. unfold_py. rewrite Hs. destruct st1 as [self1 w1].
  rewrite post_unfold. reflexivity.
Qed.

(** After a call that returned, the next call is one request. *)
Lemma next_call_sends_one_request client_name data data' (st : MCPClient.St) x :
  let call d := (MCPClient.ensure_session client_name ;;;
                 st <- get ;;
                 MCPClient._post d (Some (MCPClient.session_header st.1)))%py in
  (call data st).1 = Ok x ->
  (call data' (call data st).2).2.1 = (call data st).2.1 /\
  wire (call data' (call data st).2).2.2 =
    (wire (call data st).2.2 ++
       [MCPClient.request_for (call data st).2.1 data'
          (Some (MCPClient.session_header (call data st).2.1))])%list.
Proof.
  intros call Hx. destruct st as [self w].
  destruct (session_then_post client_name data self w) as [_ Hok].
  cbv zeta in Hok. fold (call data) in Hok. specialize (Hok x Hx).
  destruct (call data (self, w)).2 as [self1 w1] eqn:Hst. simpl in *.
  destruct (session_then_post client_name data' self1 w1) as [Hw _].
  cbv zeta in Hw. fold (call data') in Hw.
  unfold wire_after_call in Hw. rewrite Hok in Hw. exact Hw.
Qed.

(** C1.  On every client, [call_tool] (executor) and [list_tools] (doc
    refresher) put on the wire either their own request alone, under the
    session id the client holds, or the [initialize] handshake followed by
    at most that request under the id the handshake stored: nothing but
    [initialize] goes out while the session id is unset.  A call that
    returned leaves a usable session id, so the next call on that client
    sends its request only, without a handshake.  The session header of a
    request is the stored [session_id] itself. *)
Theorem session_precedes_every_call (self : MCPClient.t) (w : World)
    (tool_name : string) (params : JSON) :
  (let r := Executor.call_tool tool_name params (self, w) in
   wire_after_call "mcp-executor" (Executor.tools_call_request tool_name params)
     self w r.2.1 r.2.2 /\
   (forall body, r.1 = Ok body ->
      forall tool_name' params',
        let r' := Executor.call_tool tool_name' params' r.2 in
        r'.2.1 = r.2.1 /\
        wire r'.2.2 =
          (wire r.2.2 ++
             [MCPClient.request_for r.2.1
                (Executor.tools_call_request tool_name' params')
                (Some (MCPClient.session_header r.2.1))])%list)) /\
  (let r := RefreshToolDocs.list_tools (self, w) in
   wire_after_call "refresh-tool-docs" RefreshToolDocs.tools_list_request
     self w r.2.1 r.2.2 /\
   (forall tools, r.1 = Ok tools ->
      let r' := RefreshToolDocs.list_tools r.2 in
      r'.2.1 = r.2.1 /\
      wire r'.2.2 =
        (wire r.2.2 ++
           [MCPClient.request_for r.2.1 RefreshToolDocs.tools_list_request
              (Some (MCPClient.session_header r.2.1))])%list)) /\
  (forall (c : MCPClient.t) data,
     req_headers (MCPClient.request_for c data (Some (MCPClient.session_header c)))
       !! "Mcp-Session-Id" = Some (MCPClient.session_id c)) /\
  (forall (c : MCPClient.t) client_name,
     req_headers (MCPClient.request_for c (MCPClient.initialize_request client_name) None)
       !! "Mcp-Session-Id" = None).
Proof.
  split; [|split; [|split]].
  - rewrite call_tool_unfold. cbv zeta. cbn [fst snd]. split.
    + apply (session_then_post "mcp-executor").
    + intros body Hbody tool_name' params'.
      rewrite call_tool_unfold. cbn [fst snd].
      match type of Hbody with
      | res_bind ?r _ = _ => destruct r as [x| |] eqn:Hx; try discriminate
      end.
      exact (next_call_sends_one_request "mcp-executor" _ _ (self, w) x Hx).
  - rewrite list_tools_unfold. cbv zeta. cbn [fst snd]. split.
    + apply (session_then_post "refresh-tool-docs").
    + intros tools Htools.
      rewrite list_tools_unfold. cbn [fst snd].
      match type of Htools with
      | res_bind ?r _ = _ => destruct r as [x| |] eqn:Hx; try discriminate
      end.
      exact (next_call_sends_one_request "refresh-tool-docs" _ _ (self, w) x Hx).
  - intros c data. apply session_header_verbatim.
  - intros c client_name. reflexivity.
Qed.

(** A header that was not sent under any spelling is not in the
    dictionary under this one. *)
Lemma header_not_sent name (headers : gmap string string) :
  ~ header_sent name headers -> headers !! name = None.
Proof.
  intros Hno. destruct (headers !! name) as [value|] eqn:Hv; [|reflexivity].
  exfalso. apply Hno. exists name, value. split; [exact Hv | reflexivity].
Qed.

(** C2, as amended.  Let the handshake be answered and the answer decode.
    When the answer carries the header spelled [Mcp-Session-Id],
    [initialize] (of either script) stores its value in [session_id]
    exactly as it came; it returns the decoded body if the value is not
    empty, and raises [Exception("No session ID in response")] if it is
    the empty string.  When the answer carries no header of that name,
    in whatever letter case, [initialize] raises that exception and
    [session_id] is [None].  Whenever [initialize] returns, what it
    returns is the decoded body, and [session_id] holds the non-empty
    value the answer gave under [Mcp-Session-Id]. *)
Theorem initialize_stores_session_header (client_name : string)
    (self : MCPClient.t) (w : World) headers text body :
  handshake_reply client_name self w = Response headers text ->
  json_loads text = Some body ->
  let r := MCPClient.initialize client_name (self, w) in
  (forall sid, headers !! "Mcp-Session-Id" = Some sid ->
     MCPClient.session_id r.2.1 = Some sid /\
     (sid <> "" -> r.1 = Ok body) /\
     (sid = "" -> r.1 = Raise (Exception "No session ID in response"))) /\
  (~ header_sent "Mcp-Session-Id" headers ->
   r.1 = Raise (Exception "No session ID in response") /\
   MCPClient.session_id r.2.1 = None) /\
  (forall b, r.1 = Ok b ->
     b = body /\
     exists sid, headers !! "Mcp-Session-Id" = Some sid /\ sid <> "" /\
                 MCPClient.session_id r.2.1 = Some sid).
Proof.
  unfold handshake_reply. intros Hreply Hbody. cbv zeta.
  rewrite initialize_unfold. cbv zeta. rewrite Hreply. simpl. rewrite Hbody.
  simpl. split; [|split].
  - intros sid Hs. rewrite Hs. split; [reflexivity|]. simpl.
    destruct (String.eqb_spec sid ""); split; intros Hsid;
      try reflexivity; contradiction.
  - intros Hno. rewrite (header_not_sent _ _ Hno). simpl. split; reflexivity.
  - intros b Hb.
    destruct (truthy_opt (headers !! "Mcp-Session-Id")) eqn:Hsid; [|discriminate].
    injection Hb as <-. split; [reflexivity|].
    pose proof (proj1 (truthy_opt_true _) Hsid) as (sid & Hs & Hne).
    exists sid. split; [exact Hs|]. split; [exact Hne|]. exact Hs.
Qed.

Lemma listed_error (o : pydict) err :
  dict_lookup "error" o = Some err ->
  listed (JObject o) = Raise (Exception ("MCP error: " +:+ py_str err)).
Proof.
  intros He. unfold listed, py_in, py_getitem, dict_has, res_bind.
  rewrite He. reflexivity.
Qed.


(** C3.  Let the server answer a call with a JSON object that has an
    ["error"] member.  Then [list_tools] raises
    [Exception("MCP error: ...")], and [call_tool] returns the decoded
    object as it is, error included, without raising.  The session may
    have been standing or just established by the call ([st1] is the
    client and the world once it stands). *)
Theorem error_member_raised_by_listing_returned_by_call
    (self : MCPClient.t) (w : World) (o : pydict) (err : JSON) :
  dict_lookup "error" o = Some err ->
  (forall st1 headers text,
     MCPClient.ensure_session "refresh-tool-docs" (self, w) = (Ok tt, st1) ->
     reply_to st1 RefreshToolDocs.tools_list_request = Response headers text ->
     json_loads text = Some (JObject o) ->
     (RefreshToolDocs.list_tools (self, w)).1
       = Raise (Exception ("MCP error: " +:+ py_str err))) /\
  (forall st1 headers text tool_name params,
     MCPClient.ensure_session "mcp-executor" (self, w) = (Ok tt, st1) ->
     reply_to st1 (Executor.tools_call_request tool_name params)
       = Response headers text ->
     json_loads text = Some (JObject o) ->
     (Executor.call_tool tool_name params (self, w)).1 = Ok (JObject o)).
Proof.
  intros He. split.
  - intros st1 headers text Hs Hr Hb.
    rewrite list_tools_unfold. cbv zeta. cbn [fst].
    rewrite (call_after_session _ _ _ _ Hs), Hr. simpl. rewrite Hb. simpl.
    apply listed_error, He.
  - intros st1 headers text tool_name params Hs Hr Hb.
    rewrite call_tool_unfold. cbv zeta. cbn [fst].
    rewrite (call_after_session _ _ _ _ Hs), Hr. simpl. rewrite Hb. reflexivity.
Qed.

End ClientClaims.

(** ** The tool invoker *)

Section ExecutorClaims.
Context `{PyLib} `{Network}.

Lemma load_config_keeps_world (w : World) : (load_config w).2 = w.
Proof.
  unfold load_config. destruct (files w !! _) as [text|]; [|reflexivity].
  destruct (json_loads text); reflexivity.
Qed.

(** With a wrong number of arguments: the usage text, then [sys.exit(1)]. *)
Lemma main_usage (argv : list string) (w : World) :
  length argv <> 4%nat ->
  Executor.main argv w = (Exit 1, (print Executor.__doc__ w).2).
Proof.
  intros Hlen. unfold Executor.main. unfold_py.
  destruct (Nat.eqb_spec (length argv) 4%nat) as [He|_]; [contradiction|].
  reflexivity.
Qed.

(** With three arguments, the third not JSON: [json.loads] raises first. *)
Lemma main_bad_json (argv : list string) (w : World) :
  length argv = 4%nat ->
  json_loads (nth 3 argv "") = None ->
  Executor.main argv w = (Raise (JSONDecodeError (nth 3 argv "")), w).
Proof.
  intros Hlen Hjson. unfold Executor.main. unfold_py.
  rewrite Hlen, Hjson. reflexivity.
Qed.

(** With three arguments, the third JSON, and a configuration whose
    server mapping lacks the name: [KeyError]. *)
Lemma main_unknown_server (argv : list string) (w : World) params config servers :
  length argv = 4%nat ->
  json_loads (nth 3 argv "") = Some params ->
  (load_config w).1 = Ok config ->
  py_getitem config "mcpServers" = Ok (JObject servers) ->
  dict_lookup (nth 1 argv "") servers = None ->
  Executor.main argv w = (Raise (KeyError (nth 1 argv "")), w).
Proof.
  intros Hlen Hjson Hconfig Hservers Hname. unfold Executor.main. unfold_py.
  rewrite Hlen, Hjson. simpl.
  pose proof (load_config_keeps_world w) as Hw.
  destruct (load_config w) as [r w']. simpl in *. subst w' r.
  rewrite Hservers. unfold py_getitem. rewrite Hname. reflexivity.
Qed.

(** C8, as amended.  Let the configuration load and its ["mcpServers"]
    be a mapping without the server name given on the command line.  Then
    the process exits with status 1 and hands no request to the network;
    and when it was given three arguments of which the third is valid
    JSON, what it reports is the [KeyError] on that server name. *)
Theorem unknown_server_exits_without_network (argv : list string) (w : World)
    (config : JSON) (servers : pydict) :
  (load_config w).1 = Ok config ->
  py_getitem config "mcpServers" = Ok (JObject servers) ->
  dict_lookup (nth 1 argv "") servers = None ->
  let r := run_script (Executor.main argv) w in
  r.1 = 1 /\ wire r.2 = wire w /\ remote r.2 = remote w /\
  (length argv = 4%nat ->
   forall params, json_loads (nth 3 argv "") = Some params ->
     stdout r.2 = stdout w /\
     stderr r.2 = (stderr w ++ ["KeyError: " +:+ exc_str (KeyError (nth 1 argv ""))])%list).
Proof.
  intros Hconfig Hservers Hname. cbv zeta. unfold run_script.
  destruct (Nat.eq_dec (length argv) 4%nat) as [Hlen|Hlen].
  - destruct (json_loads (nth 3 argv "")) as [params|] eqn:Hjson.
    + rewrite (main_unknown_server argv w params config servers); try assumption.
      simpl. split; [reflexivity|]. split; [reflexivity|]. split; [reflexivity|].
      intros _ params' _. split; reflexivity.
    + rewrite main_bad_json by assumption.
      simpl. split; [reflexivity|]. split; [reflexivity|]. split; [reflexivity|].
      intros _ params' [=].
  - rewrite main_usage by assumption.
    simpl. split; [reflexivity|]. split; [reflexivity|]. split; [reflexivity|].
    intros Hlen'. contradiction.
Qed.

End ExecutorClaims.

(** ** Dictionaries *)

Section DictFacts.
Implicit Types (o : pydict) (k : string) (v : JSON).

Lemma dict_lookup_set_eq k v o : dict_lookup k (dict_set k v o) = Some v.
Proof.
  induction o as [|[k' v'] o IH]; simpl.
  - rewrite String.eqb_refl. reflexivity.
  - destruct (String.eqb_spec k k') as [->|Hne]; simpl.
    + rewrite String.eqb_refl. reflexivity.
    + destruct (String.eqb_spec k k'); [contradiction | exact IH].
Qed.

Lemma dict_lookup_set_ne k k' v o :
  k <> k' -> dict_lookup k' (dict_set k v o) = dict_lookup k' o.
Proof.
  intros Hne. induction o as [|[k0 v0] o IH]; simpl.
  - destruct (String.eqb_spec k' k); [congruence | reflexivity].
  - destruct (String.eqb_spec k k0) as [->|Hk]; simpl.
    + destruct (String.eqb_spec k' k0); [congruence | reflexivity].
    + destruct (String.eqb_spec k' k0); [reflexivity | exact IH].
Qed.

Lemma dict_lookup_keys k o : dict_lookup k o <> None <-> In k (dict_keys o).
Proof.
  induction o as [|[k' v'] o IH]; simpl.
  - split; [congruence | tauto].
  - destruct (String.eqb_spec k k') as [->|Hne].
    + split; [auto | congruence].
    + rewrite IH. split; [auto | intros [He|Hin]; [congruence | exact Hin]].
Qed.

Lemma dict_lookup_In k v o : dict_lookup k o = Some v -> In (k, v) o.
Proof.
  induction o as [|[k' v'] o IH]; simpl; [discriminate|].
  destruct (String.eqb_spec k k') as [->|Hne].
  - intros [= ->]. left. reflexivity.
  - intros Hl. right. apply IH, Hl.
Qed.

Lemma dict_keys_set k v o k' :
  In k' (dict_keys (dict_set k v o)) <-> k' = k \/ In k' (dict_keys o).
Proof.
  rewrite <- !dict_lookup_keys.
  destruct (string_dec k k') as [->|Hne].
  - rewrite dict_lookup_set_eq. split; [auto | congruence].
  - rewrite dict_lookup_set_ne by assumption.
    split; [auto | intros [He|Hl]; [congruence | exact Hl]].
Qed.

(** Setting a key the dictionary does not have appends it. *)
Lemma dict_set_fresh k v o :
  ~ In k (dict_keys o) -> dict_set k v o = (o ++ [(k, v)])%list.
Proof.
  induction o as [|[k' v'] o IH]; simpl; [reflexivity|].
  intros Hnot. destruct (String.eqb_spec k k') as [->|Hne].
  - exfalso. apply Hnot. left. reflexivity.
  - rewrite IH; [reflexivity | tauto].
Qed.
End DictFacts.

(** ** Schema conversion *)

Section SchemaFacts.

(** The record built for one parameter: the type (["string"] when the
    property names none), the description under ["desc"], the
    enumeration, the default, and the required flag exactly when the
    name is in the required set. *)
Lemma convert_param_fields (required : list JSON) (name : string) (prop : pydict) :
  exists fields,
    RefreshToolDocs.convert_param required name (JObject prop) = Ok (JObject fields) /\
    dict_lookup "type" fields =
      Some (match dict_lookup "type" prop with Some t => t | None => JString "string" end) /\
    dict_lookup "desc" fields = dict_lookup "description" prop /\
    dict_lookup "enum" fields = dict_lookup "enum" prop /\
    dict_lookup "default" fields = dict_lookup "default" prop /\
    dict_lookup "required" fields =
      (if existsb (eq_str name) required then Some (JBool true) else None).
Proof.
  unfold RefreshToolDocs.convert_param, py_get, py_in, py_getitem, dict_has, res_bind.
  destruct (dict_lookup "description" prop) as [d|];
    destruct (dict_lookup "enum" prop) as [e|];
    destruct (dict_lookup "default" prop) as [df|];
    destruct (existsb (eq_str name) required);
    eexists; (split; [reflexivity|]); simpl; repeat split; reflexivity.
Qed.

Lemma convert_param_not_dict required name prop :
  is_dict prop = false ->
  RefreshToolDocs.convert_param required name prop = Raise (AttributeError "get" prop).
Proof. destruct prop; simpl; intros; try discriminate; reflexivity. Qed.

(** The loop over [props.items()]: it adds the names it visits to the
    names already in [params], and every record it stores comes from
    [convert_param]. *)
Lemma convert_loop_spec (required : list JSON) (items : pydict) :
  forallb (fun kv => is_dict kv.2) items = true ->
  forall params, exists out,
    RefreshToolDocs.convert_loop required items params = Ok out /\
    (forall k, In k (dict_keys out) <-> In k (dict_keys params) \/ In k (dict_keys items)) /\
    (forall k p, dict_lookup k out = Some p ->
       dict_lookup k params = Some p \/
       exists prop, In (k, prop) items /\
                    RefreshToolDocs.convert_param required k prop = Ok p) /\
    (NoDup (dict_keys params ++ dict_keys items) ->
     dict_keys out = (dict_keys params ++ dict_keys items)%list).
Proof.
  induction items as [|[name prop] items IH]; intros Hok params; simpl.
  - exists params. split; [reflexivity|]. split; [|split].
    + intros k. tauto.
    + intros k p Hl. left. exact Hl.
    + intros _. rewrite app_nil_r. reflexivity.
  - simpl in Hok. apply andb_true_iff in Hok as [Hprop Hrest].
    destruct prop as [| | | | | |po]; try discriminate.
    destruct (convert_param_fields required name po) as (fields & Hconv & _).
    rewrite Hconv. simpl.
    destruct (IH Hrest (dict_set name (JObject fields) params))
      as (out & Hout & Hkeys & Hvals & Hord).
    exists out. split; [exact Hout|]. split; [|split].
    + intros k. rewrite Hkeys, dict_keys_set. simpl.
      split; intros Hk; intuition (subst; auto).
    + intros k p Hl. destruct (Hvals k p Hl) as [Hp | (prop & Hin & Hc)].
      * destruct (string_dec name k) as [->|Hne].
        -- rewrite dict_lookup_set_eq in Hp. injection Hp as <-.
           right. exists (JObject po). split; [left; reflexivity | exact Hconv].
        -- rewrite dict_lookup_set_ne in Hp by assumption. left. exact Hp.
      * right. exists prop. split; [right; exact Hin | exact Hc].
    + intros Hnd.
      assert (Hfresh : ~ In name (dict_keys params)).
      { intros Hin. apply NoDup_app in Hnd as (_ & Hdisj & _).
        apply (Hdisj name); [apply list_elem_of_In, Hin | left]. }
      rewrite dict_set_fresh in Hord by assumption.
      unfold dict_keys in *. rewrite map_app in Hord. simpl in *.
      rewrite <- app_assoc in Hord. apply Hord. exact Hnd.
Qed.

Lemma py_set_ok (r : JSON) :
  match r with
  | JArray l => forallb hashable l
  | JObject _ | JString _ => true
  | _ => false
  end = true ->
  exists xs, py_iter r = Ok xs /\ py_set r = Ok xs.
Proof.
  unfold py_set. destruct r as [| | | |s|l|o]; try discriminate; simpl; intros Hh.
  - exists (str_chars s). split; [reflexivity|].
    assert (Hf : find (fun x => negb (hashable x)) (str_chars s) = None).
    { unfold str_chars. induction (list_ascii_of_string s); simpl; auto. }
    rewrite Hf. reflexivity.
  - exists l. split; [reflexivity|].
    assert (Hf : find (fun x => negb (hashable x)) l = None).
    { induction l as [|x l IH]; simpl in *; [reflexivity|].
      apply andb_true_iff in Hh as [Hx Hl]. rewrite Hx. simpl. auto. }
    rewrite Hf. reflexivity.
  - exists (map JString (dict_keys o)). split; [reflexivity|].
    assert (Hf : find (fun x => negb (hashable x)) (map JString (dict_keys o)) = None).
    { induction (dict_keys o); simpl; auto. }
    rewrite Hf. reflexivity.
Qed.

(** What the conversion returns on a schema it accepts. *)
Lemma convert_schema_spec (input_schema : JSON) :
  schema_ok input_schema = true ->
  exists params,
    RefreshToolDocs.convert_schema_to_yaml_params input_schema = Ok (JObject params) /\
    (forall name,
       In name (dict_keys params) <-> In name (dict_keys (schema_properties input_schema))) /\
    (NoDup (dict_keys (schema_properties input_schema)) ->
     dict_keys params = dict_keys (schema_properties input_schema)) /\
    (forall name,
       schema_requires name input_schema = true ->
       dict_lookup name (schema_properties input_schema) = None ->
       dict_lookup name params = None) /\
    (forall name param,
       dict_lookup name params = Some param ->
       exists fields,
         param = JObject fields /\
         dict_lookup "required" fields =
           (if schema_requires name input_schema then Some (JBool true) else None)).
Proof.
  destruct input_schema as [| | | | | |o]; try discriminate.
  unfold schema_ok, schema_properties, schema_requires.
  intros Hok. apply andb_true_iff in Hok as [Hprops Hreq].
  unfold RefreshToolDocs.convert_schema_to_yaml_params, py_get.
  set (props := match dict_lookup "properties" o with
                | Some x => x | None => JObject [] end).
  set (req := match dict_lookup "required" o with
              | Some x => x | None => JArray [] end).
  assert (Hreq' : exists xs, py_iter req = Ok xs /\ py_set req = Ok xs).
  { subst req. destruct (dict_lookup "required" o) as [r|].
    - apply py_set_ok. destruct r; try discriminate; exact Hreq.
    - exists []. split; reflexivity. }
  destruct Hreq' as (xs & Hiter & Hset).
  assert (Hitems : exists items,
             props = JObject items /\
             forallb (fun kv => is_dict kv.2) items = true /\
             match dict_lookup "properties" o with
             | Some (JObject ps) => ps | _ => [] end = items).
  { subst props. destruct (dict_lookup "properties" o) as [p|].
    - destruct p; try discriminate. eexists. repeat split. exact Hprops.
    - exists []. repeat split. }
  destruct Hitems as (items & Hp & Hdicts & Hsame).
  rewrite Hsame. simpl. rewrite Hset, Hp. simpl.
  destruct (convert_loop_spec xs items Hdicts []) as (out & Hout & Hkeys & Hvals & Hord).
  rewrite Hout. simpl. exists out. split; [reflexivity|].
  assert (Hflag : forall name, match dict_lookup "required" o with
                               | Some r => match py_iter r with
                                           | Ok ys => existsb (eq_str name) ys
                                           | _ => false end
                               | None => false end = existsb (eq_str name) xs).
  { intros name. subst req. destruct (dict_lookup "required" o) as [r|].
    - rewrite Hiter. reflexivity.
    - injection Hiter as <-. reflexivity. }
  split; [|split; [|split]].
  - intros name. rewrite Hkeys. simpl. tauto.
  - intros Hnd. apply Hord. exact Hnd.
  - intros name _ Hnone.
    destruct (dict_lookup name out) eqn:Hl; [|reflexivity].
    exfalso. assert (Hin : In name (dict_keys out)).
    { apply dict_lookup_keys. congruence. }
    apply Hkeys in Hin as [[]|Hin]. apply dict_lookup_keys in Hin. contradiction.
  - intros name param Hl. rewrite Hflag.
    destruct (Hvals name param Hl) as [Habs | (prop & Hin & Hconv)]; [discriminate|].
    destruct prop as [| | | | | |po]; try discriminate.
    destruct (convert_param_fields xs name po) as (fields & Hf & _ & _ & _ & _ & Hr).
    rewrite Hf in Hconv. injection Hconv as <-.
    exists fields. split; [reflexivity | exact Hr].
Qed.

(** The conversion returns on no other schema. *)
Lemma py_set_returns (r : JSON) xs :
  py_set r = Ok xs ->
  match r with
  | JArray l => forallb hashable l
  | JObject _ | JString _ => true
  | _ => false
  end = true.
Proof.
  unfold py_set. destruct r as [| | | |s|l|o]; simpl; try discriminate; try reflexivity.
  destruct (find (fun x => negb (hashable x)) l) as [x|] eqn:Hf; [discriminate|].
  intros _. induction l as [|y l IH]; simpl in *; [reflexivity|].
  destruct (hashable y); simpl in *; [auto | discriminate].
Qed.

Lemma convert_loop_returns (required : list JSON) (items : pydict) :
  forall params out,
    RefreshToolDocs.convert_loop required items params = Ok out ->
    forallb (fun kv => is_dict kv.2) items = true.
Proof.
  induction items as [|[name prop] items IH]; intros params out; simpl; [reflexivity|].
  destruct (is_dict prop) eqn:Hd.
  - destruct prop as [| | | | | |po]; try discriminate.
    destruct (convert_param_fields required name po) as (fields & Hconv & _).
    rewrite Hconv. simpl. apply IH.
  - rewrite (convert_param_not_dict _ _ _ Hd). discriminate.
Qed.

Lemma convert_schema_returns_only_on_ok (input_schema : JSON) params :
  RefreshToolDocs.convert_schema_to_yaml_params input_schema = Ok params ->
  schema_ok input_schema = true.
Proof.
  destruct input_schema as [| | | | | |o]; try discriminate.
  unfold RefreshToolDocs.convert_schema_to_yaml_params, schema_ok, py_get.
  cbn [res_bind].
  destruct (py_set match dict_lookup "required" o with
                   | Some x => x | None => JArray [] end) as [xs| |] eqn:Hset;
    try discriminate.
  cbn [res_bind]. apply py_set_returns in Hset.
  assert (Hreq : match dict_lookup "required" o with
                 | None => true
                 | Some (JArray l) => forallb hashable l
                 | Some (JObject _) | Some (JString _) => true
                 | Some _ => false
                 end = true).
  { destruct (dict_lookup "required" o) as [r|]; [exact Hset | reflexivity]. }
  rewrite Hreq, andb_true_r.
  destruct (dict_lookup "properties" o) as [p|]; [|reflexivity].
  destruct p as [| | | | | |props]; try discriminate.
  cbn [py_items res_bind].
  destruct (RefreshToolDocs.convert_loop xs props []) as [out| |] eqn:Hloop;
    try discriminate.
  intros _. exact (convert_loop_returns xs props [] out Hloop).
Qed.

(** C10.  On every input schema the conversion accepts, it returns a
    record whose parameter names are exactly the keys of the schema's
    ["properties"] (in the same order, the keys of a dictionary being
    distinct).  A name of the ["required"] list that is not a key of
    ["properties"] gets no entry, and an entry carries
    ["required": true] exactly when its name is in the required set. *)
Theorem parameter_names_are_property_keys (input_schema : JSON) :
  schema_ok input_schema = true ->
  exists params,
    RefreshToolDocs.convert_schema_to_yaml_params input_schema = Ok (JObject params) /\
    (forall name,
       In name (dict_keys params) <-> In name (dict_keys (schema_properties input_schema))) /\
    (NoDup (dict_keys (schema_properties input_schema)) ->
     dict_keys params = dict_keys (schema_properties input_schema)) /\
    (forall name,
       schema_requires name input_schema = true ->
       dict_lookup name (schema_properties input_schema) = None ->
       dict_lookup name params = None) /\
    (forall name param,
       dict_lookup name params = Some param ->
       exists fields,
         param = JObject fields /\
         dict_lookup "required" fields =
           (if schema_requires name input_schema then Some (JBool true) else None)).
Proof. exact (convert_schema_spec input_schema). Qed.

(** C7.  The schema with properties [a] (a string) and [b] (an integer
    with default 5) and required list [["a"]] converts to a record that
    marks [a], and only [a], as required and records 5 as the default
    of [b]. *)
Theorem example_schema_converts :
  RefreshToolDocs.convert_schema_to_yaml_params Sample.ab_schema
    = Ok (JObject
            [("a", JObject [("type", JString "string"); ("required", JBool true)]);
             ("b", JObject [("type", JString "integer"); ("default", JInt 5)])]).
Proof. reflexivity. Qed.
End SchemaFacts.

(** ** Text *)

Section TextFacts.





End TextFacts.

(** ** Rendering the tools of a server *)

Section RenderFacts.
Context `{PyLib} `{Network}.










End RenderFacts.

(** ** Nothing but the usage branch exits *)

Section ExitFacts.
Context {S A B : Type}.

Lemma res_never_exits_ok (a : A) : res_never_exits (Ok a).
Proof. intros c. discriminate. Qed.

Lemma res_never_exits_raise (e : PyExc) : res_never_exits (@Raise A e).
Proof. intros c. discriminate. Qed.

Lemma res_never_exits_bind (r : Res A) (k : A -> Res B) :
  res_never_exits r -> (forall a, res_never_exits (k a)) ->
  res_never_exits (res_bind r k).
Proof.
  intros Hr Hk c. destruct r as [a| |c']; simpl.
  - apply Hk.
  - discriminate.
  - exfalso. apply (Hr c'). reflexivity.
Qed.

Lemma never_exits_ret (a : A) : never_exits (@ret S A a).
Proof. intros s c. discriminate. Qed.

Lemma never_exits_raise (e : PyExc) : never_exits (@raise S A e).
Proof. intros s c. discriminate. Qed.

Lemma never_exits_lift (r : Res A) : res_never_exits r -> never_exits (@lift S A r).
Proof. intros Hr s c. apply Hr. Qed.

Lemma never_exits_get : never_exits (@get S).
Proof. intros s c. discriminate. Qed.

Lemma never_exits_modify (f : S -> S) : never_exits (modify f).
Proof. intros s c. discriminate. Qed.

Lemma never_exits_bind (m : M S A) (k : A -> M S B) :
  never_exits m -> (forall a, never_exits (k a)) -> never_exits (bind m k).
Proof.
  intros Hm Hk s c. unfold bind. specialize (Hm s).
  destruct (m s) as [[a|e|c'] s']; simpl in *.
  - apply Hk.
  - discriminate.
  - exfalso. apply (Hm c'). reflexivity.
Qed.
End ExitFacts.

Create HintDb py_exit.
#[global] Hint Resolve res_never_exits_ok res_never_exits_raise res_never_exits_bind
  never_exits_ret never_exits_raise never_exits_lift never_exits_get
  never_exits_modify never_exits_bind : py_exit.
#[global] Hint Extern 2 (res_never_exits (if ?b then _ else _)) => destruct b : py_exit.
#[global] Hint Extern 2 (never_exits (if ?b then _ else _)) => destruct b : py_exit.
#[global] Hint Extern 2 (res_never_exits (match ?r with Some _ => _ | None => _ end)) =>
  destruct r : py_exit.

Section OperationsNeverExit.

Lemma py_in_never_exits key v : res_never_exits (py_in key v).
Proof. destruct v; simpl; auto with py_exit. Qed.

Lemma py_get_never_exits v key d : res_never_exits (py_get v key d).
Proof. destruct v; simpl; auto with py_exit. Qed.

Lemma py_getitem_never_exits v key : res_never_exits (py_getitem v key).
Proof. destruct v; simpl; auto with py_exit. Qed.

Lemma py_items_never_exits v : res_never_exits (py_items v).
Proof. destruct v; simpl; auto with py_exit. Qed.

Lemma py_iter_never_exits v : res_never_exits (py_iter v).
Proof. destruct v; simpl; auto with py_exit. Qed.

Lemma str_join_never_exits sep items : res_never_exits (str_join sep items).
Proof.
  induction items as [|x items IH]; simpl; [auto with py_exit|].
  destruct x; auto with py_exit; destruct items; auto with py_exit.
Qed.
End OperationsNeverExit.

#[global] Hint Resolve py_in_never_exits py_get_never_exits py_getitem_never_exits
  py_items_never_exits py_iter_never_exits str_join_never_exits : py_exit.

Section ScriptNeverExits.
Context `{PyLib} `{Network}.

Lemma py_set_never_exits v : res_never_exits (py_set v).
Proof. unfold py_set. auto with py_exit. Qed.

Lemma convert_param_never_exits required name prop :
  res_never_exits (RefreshToolDocs.convert_param required name prop).
Proof. unfold RefreshToolDocs.convert_param. auto 20 with py_exit. Qed.

Lemma convert_loop_never_exits required items params :
  res_never_exits (RefreshToolDocs.convert_loop required items params).
Proof.
  revert params. induction items as [|[name prop] items IH]; intros params; simpl.
  - auto with py_exit.
  - apply res_never_exits_bind; [apply convert_param_never_exits | auto].
Qed.

Lemma convert_schema_never_exits input_schema :
  res_never_exits (RefreshToolDocs.convert_schema_to_yaml_params input_schema).
Proof.
  unfold RefreshToolDocs.convert_schema_to_yaml_params.
  pose proof py_set_never_exits. pose proof convert_loop_never_exits.
  auto 20 with py_exit.
Qed.




Lemma read_response_never_exits reply : res_never_exits (MCPClient.read_response reply).
Proof. destruct reply; simpl; auto with py_exit. Qed.

Lemma listed_never_exits body : res_never_exits (listed body).
Proof. unfold listed. auto 20 with py_exit. Qed.
End ScriptNeverExits.

(** ** The loop over the configured servers *)

Section LoopFacts.
Context `{PyLib} `{Network}.

(** A call talks to the server and does nothing else: standard output,
    standard error and the files are as before, and it does not exit. *)
Lemma call_is_network_only client_name data (self : MCPClient.t) (w : World) :
  let r := (MCPClient.ensure_session client_name ;;;
            st <- get ;;
            MCPClient._post data (Some (MCPClient.session_header st.1)))%py (self, w) in
  stdout r.2.2 = stdout w /\ stderr r.2.2 = stderr w /\ files r.2.2 = files w /\
  res_never_exits r.1.
Proof.
  cbv zeta. unfold_py. rewrite ensure_session_unfold.
  destruct (truthy_opt (MCPClient.session_id self)).
  - rewrite post_unfold. simpl. repeat split. apply read_response_never_exits.
  - rewrite initialize_unfold. cbv zeta.
    pose proof (read_response_never_exits
                  (urlopen (remote w)
                     (MCPClient.request_for self
                        (MCPClient.initialize_request client_name) None)).1) as Hr.
    destruct (MCPClient.read_response _) as [[body headers]| |c]; simpl.
    + destruct (truthy_opt (headers !! "Mcp-Session-Id")); simpl.
      * rewrite post_unfold. simpl. repeat split. apply read_response_never_exits.
      * repeat split. apply res_never_exits_raise.
    + repeat split. apply res_never_exits_raise.
    + exfalso. apply (Hr c). reflexivity.
Qed.

Lemma fetch_tools_unfold (mcp_url : JSON) (w : World) :
  RefreshToolDocs.fetch_tools mcp_url w =
    ((RefreshToolDocs.list_tools (MCPClient.__init__ mcp_url, w)).1,
     (RefreshToolDocs.list_tools (MCPClient.__init__ mcp_url, w)).2.2).
Proof.
  unfold RefreshToolDocs.fetch_tools, MCPClient.on_client.
  destruct (RefreshToolDocs.list_tools _) as [r st]. reflexivity.
Qed.











End LoopFacts.

Section LoopClaims.
Context `{PyLib} `{Network}.


(** When the tools directory cannot be made, the main block ends there. *)
Lemma refresh_main_mkdir_fails (w : World) config e :
  (load_config w).1 = Ok config ->
  path_mkdir (files w) (dirs w) (path_div SCRIPT_DIR "tools") = Some e ->
  RefreshToolDocs.main w = (Raise e, w).
Proof.
  intros Hconfig Hmkdir. unfold RefreshToolDocs.main.
  unfold bind at 1. pose proof (load_config_keeps_world w) as Hw.
  destruct (load_config w) as [r w']. simpl in Hconfig, Hw. subst r w'.
  unfold bind at 1. unfold mkdir at 1. rewrite Hmkdir. reflexivity.
Qed.

(** The ways listing can fail, each an exception out of [fetch_tools]: the
    transport fails, during the handshake or during the call; the handshake
    brings no session id; the reply is not JSON; the reply has an
    ["error"] member. *)
Lemma fetch_tools_failures (mcp_url : JSON) (w : World) :
  let self := MCPClient.__init__ mcp_url in
  (forall e,
     handshake_reply "refresh-tool-docs" self w = Failure e ->
     (RefreshToolDocs.fetch_tools mcp_url w).1 = Raise e) /\
  (forall headers text body,
     handshake_reply "refresh-tool-docs" self w = Response headers text ->
     json_loads text = Some body ->
     headers !! "Mcp-Session-Id" = None ->
     (RefreshToolDocs.fetch_tools mcp_url w).1
       = Raise (Exception "No session ID in response")) /\
  (forall st1,
     MCPClient.ensure_session "refresh-tool-docs" (self, w) = (Ok tt, st1) ->
     (forall e,
        reply_to st1 RefreshToolDocs.tools_list_request = Failure e ->
        (RefreshToolDocs.fetch_tools mcp_url w).1 = Raise e) /\
     (forall headers text,
        reply_to st1 RefreshToolDocs.tools_list_request = Response headers text ->
        json_loads text = None ->
        (RefreshToolDocs.fetch_tools mcp_url w).1 = Raise (JSONDecodeError text)) /\
     (forall headers text o err,
        reply_to st1 RefreshToolDocs.tools_list_request = Response headers text ->
        json_loads text = Some (JObject o) ->
        dict_lookup "error" o = Some err ->
        (RefreshToolDocs.fetch_tools mcp_url w).1
          = Raise (Exception ("MCP error: " +:+ py_str err)))).
Proof.
  cbv zeta. unfold handshake_reply.
  split; [|split].
  - intros e Hreply. rewrite fetch_tools_unfold, list_tools_unfold. cbv zeta. cbn [fst].
    unfold_py. rewrite ensure_session_unfold. simpl truthy_opt. cbv iota.
    rewrite initialize_unfold. cbv zeta. rewrite Hreply. reflexivity.
  - intros headers text body Hreply Hbody Hnone.
    rewrite fetch_tools_unfold, list_tools_unfold. cbv zeta. cbn [fst].
    unfold_py. rewrite ensure_session_unfold. simpl truthy_opt. cbv iota.
    rewrite initialize_unfold. cbv zeta. rewrite Hreply. simpl. rewrite Hbody. simpl.
    rewrite Hnone. reflexivity.
  - intros st1 Hs. split; [|split].
    + intros e Hreply. rewrite fetch_tools_unfold, list_tools_unfold. cbv zeta. cbn [fst].
      rewrite (call_after_session _ _ _ _ Hs), Hreply. reflexivity.
    + intros headers text Hreply Hbody.
      rewrite fetch_tools_unfold, list_tools_unfold. cbv zeta. cbn [fst].
      rewrite (call_after_session _ _ _ _ Hs), Hreply. simpl. rewrite Hbody. reflexivity.
    + intros headers text o err Hreply Hbody Herr.
      rewrite fetch_tools_unfold, list_tools_unfold. cbv zeta. cbn [fst].
      rewrite (call_after_session _ _ _ _ Hs), Hreply. simpl. rewrite Hbody. simpl.
      apply listed_error, Herr.
Qed.


End LoopClaims.

(** * Further properties *)

(** ** The session client *)

Section MoreClientFacts.
Context `{PyLib} `{Network}.

Lemma request_for_posted (self : MCPClient.t) data :
  posted_to (MCPClient.base_url self) (MCPClient.request_for self data None) /\
  posted_to (MCPClient.base_url self)
    (MCPClient.request_for self data (Some (MCPClient.session_header self))).
Proof.
  unfold posted_to, MCPClient.request_for, MCPClient.session_header. simpl.
  split; (split; [reflexivity|]; split; [reflexivity|]).
  - apply lookup_singleton_eq.
  - destruct (decide _) as [He|_]; [apply lookup_singleton_eq|].
    rewrite lookup_union_r; [apply lookup_singleton_eq|].
    apply lookup_singleton_ne. discriminate.
Qed.

(** What a call sends: one or two requests, each a POST to the URL of
    the client, which keeps that URL. *)
Lemma call_requests client_name data (self : MCPClient.t) (w : World) :
  let r := (MCPClient.ensure_session client_name ;;;
            st <- get ;;
            MCPClient._post data (Some (MCPClient.session_header st.1)))%py (self, w) in
  MCPClient.base_url r.2.1 = MCPClient.base_url self /\
  exists new,
    wire r.2.2 = (wire w ++ new)%list /\
    (1 <= length new <= 2)%nat /\
    Forall (posted_to (MCPClient.base_url self)) new.
Proof.
  cbv zeta.
  destruct (session_then_post client_name data self w) as [Hwire _].
  cbv zeta in Hwire. unfold wire_after_call in Hwire.
  assert (Hurl : MCPClient.base_url
                   ((MCPClient.ensure_session client_name ;;;
                     st <- get ;;
                     MCPClient._post data (Some (MCPClient.session_header st.1)))%py
                      (self, w)).2.1 = MCPClient.base_url self).
  { unfold_py. rewrite ensure_session_unfold.
    destruct (truthy_opt (MCPClient.session_id self)).
    - rewrite post_unfold. reflexivity.
    - rewrite initialize_unfold. cbv zeta.
      destruct (MCPClient.read_response _) as [[body headers]| |]; simpl; try reflexivity.
      destruct (truthy_opt (headers !! "Mcp-Session-Id")); simpl; [|reflexivity].
      rewrite post_unfold. reflexivity. }
  split; [exact Hurl|].
  destruct (truthy_opt (MCPClient.session_id self)).
  - destruct Hwire as [_ Hw]. eexists. split; [exact Hw|]. split; [simpl; lia|].
    constructor; [apply request_for_posted | constructor].
  - destruct Hwire as [[Hw _] | [_ Hw]].
    + eexists. split; [exact Hw|]. split; [simpl; lia|].
      constructor; [apply request_for_posted | constructor].
    + eexists. split; [exact Hw|]. split; [simpl; lia|].
      constructor; [apply request_for_posted|].
      constructor; [|constructor]. rewrite <- Hurl. apply request_for_posted.
Qed.

(** X1.  [initialize] sends the handshake, one request, whatever session
    id the client already holds.  When the exchange fails, by the transport
    or by a body that is not JSON, it raises that exception and the client is
    as before; when it succeeds, the session id is replaced by what the
    answer carries, a missing header included.  It prints nothing and
    touches no file. *)
Theorem initialize_always_sends_the_handshake
    (client_name : string) (self : MCPClient.t) (w : World) :
  let r := MCPClient.initialize client_name (self, w) in
  wire r.2.2 =
    (wire w ++ [MCPClient.request_for self
                  (MCPClient.initialize_request client_name) None])%list /\
  MCPClient.base_url r.2.1 = MCPClient.base_url self /\
  stdout r.2.2 = stdout w /\ stderr r.2.2 = stderr w /\ files r.2.2 = files w /\
  match handshake_reply client_name self w with
  | Failure e => r.1 = Raise e /\ r.2.1 = self
  | Response headers text =>
      match json_loads text with
      | None => r.1 = Raise (JSONDecodeError text) /\ r.2.1 = self
      | Some body =>
          MCPClient.session_id r.2.1 = headers !! "Mcp-Session-Id" /\
          (r.1 = Ok body \/ r.1 = Raise (Exception "No session ID in response"))
      end
  end.
Proof.
  cbv zeta. unfold handshake_reply. rewrite initialize_unfold. cbv zeta.
  destruct (urlopen (remote w) _).1 as [headers text|e]; simpl.
  - destruct (json_loads text) as [body|]; simpl.
    + repeat split. destruct (truthy_opt _); [left | right]; reflexivity.
    + repeat split.
  - repeat split.
Qed.

(** X2.  On a client without a usable session id, a handshake that
    raises ends the call: [call_tool] and [list_tools] raise what
    [initialize] raised and leave the client and the world as [initialize]
    left them, so that their own request is never sent. *)
Theorem failed_handshake_ends_the_call (self : MCPClient.t) (w : World) (e : PyExc) :
  truthy_opt (MCPClient.session_id self) = false ->
  (forall tool_name params,
     (Executor.initialize (self, w)).1 = Raise e ->
     Executor.call_tool tool_name params (self, w)
       = (Raise e, (Executor.initialize (self, w)).2)) /\
  ((RefreshToolDocs.initialize (self, w)).1 = Raise e ->
   RefreshToolDocs.list_tools (self, w)
     = (Raise e, (RefreshToolDocs.initialize (self, w)).2)).
Proof.
  intros Hsid. unfold Executor.initialize, RefreshToolDocs.initialize. split.
  - intros tool_name params Hinit. rewrite call_tool_unfold. cbv zeta. unfold_py.
    rewrite ensure_session_unfold, Hsid.
    destruct (MCPClient.initialize "mcp-executor" (self, w)) as [r st].
    simpl in Hinit. subst r. reflexivity.
  - intros Hinit. rewrite list_tools_unfold. cbv zeta. unfold_py.
    rewrite ensure_session_unfold, Hsid.
    destruct (MCPClient.initialize "refresh-tool-docs" (self, w)) as [r st].
    simpl in Hinit. subst r. reflexivity.
Qed.


Lemma listed_returns_iff (body v : JSON) :
  listed body = Ok v <->
  exists o,
    body = JObject o /\ dict_lookup "error" o = None /\
    ((dict_lookup "result" o = None /\ v = JArray []) \/
     (exists r, dict_lookup "result" o = Some (JObject r) /\
                v = match dict_lookup "tools" r with
                    | Some tools => tools
                    | None => JArray []
                    end)).
Proof.
  unfold listed, py_in, py_getitem, py_get, dict_has, res_bind. split.
  - destruct body as [| | | |s|l|o]; try discriminate.
    + destruct (str_contains "error" s); discriminate.
    + destruct (existsb (eq_str "error") l); discriminate.
    + destruct (dict_lookup "error" o) as [err|] eqn:Herr; [discriminate|].
      destruct (dict_lookup "result" o) as [result|] eqn:Hr.
      * destruct result as [| | | | | |r]; try discriminate.
        intros [= <-]. exists o. split; [reflexivity|]. split; [exact Herr|].
        right. exists r. split; [exact Hr | reflexivity].
      * intros [= <-]. exists o. split; [reflexivity|]. split; [exact Herr|].
        left. split; [exact Hr | reflexivity].
  - intros (o & -> & Herr & Hres). rewrite Herr.
    destruct Hres as [[Hr ->] | (r & Hr & ->)]; rewrite Hr; reflexivity.
Qed.

(** X4.  Once the session stands and the reply to the listing decodes,
    [list_tools] returns a value in these cases only: the body is a JSON
    object without an ["error"] member, and its ["result"] is missing, which
    gives the empty list, or is an object, which gives its ["tools"] member
    as it is, or the empty list when it has none.  On every other body it
    raises. *)
Theorem list_tools_returns_iff (self : MCPClient.t) (w : World) (st1 : MCPClient.St)
    headers text (body v : JSON) :
  MCPClient.ensure_session "refresh-tool-docs" (self, w) = (Ok tt, st1) ->
  reply_to st1 RefreshToolDocs.tools_list_request = Response headers text ->
  json_loads text = Some body ->
  ((RefreshToolDocs.list_tools (self, w)).1 = Ok v <->
   exists o,
     body = JObject o /\ dict_lookup "error" o = None /\
     ((dict_lookup "result" o = None /\ v = JArray []) \/
      (exists r, dict_lookup "result" o = Some (JObject r) /\
                 v = match dict_lookup "tools" r with
                     | Some tools => tools
                     | None => JArray []
                     end))) /\
  (forall c, (RefreshToolDocs.list_tools (self, w)).1 <> Exit c).
Proof.
  intros Hs Hreply Hbody.
  assert (Hres : (RefreshToolDocs.list_tools (self, w)).1 = listed body).
  { rewrite list_tools_unfold. cbv zeta. cbn [fst].
    rewrite (call_after_session _ _ _ _ Hs), Hreply. simpl. rewrite Hbody. reflexivity. }
  rewrite Hres. split; [apply listed_returns_iff | apply listed_never_exits].
Qed.

End MoreClientFacts.

(** ** Schema conversion and rendering *)

Section MoreSchemaFacts.
Context `{PyLib} `{Network}.

Lemma In_dict_lookup (o : pydict) k v :
  NoDup (dict_keys o) -> In (k, v) o -> dict_lookup k o = Some v.
Proof.
  induction o as [|[k' v'] o IH]; simpl; [tauto|].
  intros Hnd Hin. apply NoDup_cons in Hnd as [Hfresh Hnd].
  destruct Hin as [[= -> ->] | Hin].
  - rewrite String.eqb_refl. reflexivity.
  - destruct (String.eqb_spec k k') as [->|Hne]; [|auto].
    exfalso. apply Hfresh. apply list_elem_of_In.
    change (In k' (map fst o)). apply in_map_iff. exists (k', v). auto.
Qed.

Lemma convert_param_keys (required : list JSON) (name : string) (prop fields : pydict) :
  RefreshToolDocs.convert_param required name (JObject prop) = Ok (JObject fields) ->
  forall k, In k (dict_keys fields) -> In k param_keys.
Proof.
  unfold RefreshToolDocs.convert_param, py_get, py_in, py_getitem, dict_has, res_bind.
  destruct (dict_lookup "description" prop) as [d|];
    destruct (dict_lookup "enum" prop) as [e|];
    destruct (dict_lookup "default" prop) as [df|];
    destruct (existsb (eq_str name) required);
    intros [= <-] k; unfold param_keys; simpl; tauto.
Qed.

(** The entries of the record, each the work of [convert_param] on a
    property of the schema, for one and the same required set. *)
Lemma convert_schema_entries (input_schema : JSON) :
  schema_ok input_schema = true ->
  exists params required,
    RefreshToolDocs.convert_schema_to_yaml_params input_schema = Ok (JObject params) /\
    (forall name,
       In name (dict_keys params) <-> In name (dict_keys (schema_properties input_schema))) /\
    (forall name p,
       dict_lookup name params = Some p ->
       exists prop,
         In (name, prop) (schema_properties input_schema) /\
         RefreshToolDocs.convert_param required name prop = Ok p).
Proof.
  destruct input_schema as [| | | | | |o]; try discriminate.
  unfold schema_ok, schema_properties.
  intros Hok. apply andb_true_iff in Hok as [Hprops Hreq].
  unfold RefreshToolDocs.convert_schema_to_yaml_params, py_get.
  assert (Hreq' : exists xs,
             py_set match dict_lookup "required" o with
                    | Some x => x | None => JArray [] end = Ok xs).
  { destruct (dict_lookup "required" o) as [r|].
    - destruct (py_set_ok r) as (xs & _ & Hset); [|exists xs; exact Hset].
      destruct r; try discriminate; exact Hreq.
    - exists []. reflexivity. }
  destruct Hreq' as (xs & Hset).
  assert (Hitems : exists items,
             match dict_lookup "properties" o with
             | Some x => x | None => JObject [] end = JObject items /\
             forallb (fun kv => is_dict kv.2) items = true /\
             match dict_lookup "properties" o with
             | Some (JObject ps) => ps | _ => [] end = items).
  { destruct (dict_lookup "properties" o) as [p|].
    - destruct p; try discriminate. eexists. repeat split. exact Hprops.
    - exists []. repeat split. }
  destruct Hitems as (items & Hp & Hdicts & Hsame).
  rewrite Hsame. cbn [res_bind]. rewrite Hset, Hp. cbn [res_bind py_items].
  destruct (convert_loop_spec xs items Hdicts []) as (out & Hout & Hkeys & Hvals & _).
  rewrite Hout. cbn [res_bind]. exists out, xs. split; [reflexivity|]. split.
  - intros name. rewrite Hkeys. simpl. tauto.
  - intros name p Hl. destruct (Hvals name p Hl) as [Habs | Hprop]; [discriminate|].
    exact Hprop.
Qed.

(** X6.  In the record the conversion returns, the entry of a property
    holds its ["type"], or ["string"] when it names none; its
    ["description"] under the key ["desc"]; its ["enum"] and its
    ["default"] as they are, when it has them, a default of [0], [false] or
    [null] included; and no key besides these and ["required"]: whatever
    else the property says is dropped. *)
Theorem parameter_record_fields (input_schema : JSON) (name : string) (prop : pydict) :
  schema_ok input_schema = true ->
  NoDup (dict_keys (schema_properties input_schema)) ->
  dict_lookup name (schema_properties input_schema) = Some (JObject prop) ->
  exists params fields,
    RefreshToolDocs.convert_schema_to_yaml_params input_schema = Ok (JObject params) /\
    dict_lookup name params = Some (JObject fields) /\
    dict_lookup "type" fields =
      Some (match dict_lookup "type" prop with Some t => t | None => JString "string" end) /\
    dict_lookup "desc" fields = dict_lookup "description" prop /\
    dict_lookup "enum" fields = dict_lookup "enum" prop /\
    dict_lookup "default" fields = dict_lookup "default" prop /\
    (forall k, In k (dict_keys fields) -> In k param_keys).
Proof.
  intros Hok Hnd Hprop.
  destruct (convert_schema_entries input_schema Hok)
    as (params & required & Hconv & Hkeys & Hentries).
  assert (Hin : In name (dict_keys params)).
  { apply Hkeys, dict_lookup_keys. rewrite Hprop. discriminate. }
  apply dict_lookup_keys in Hin.
  destruct (dict_lookup name params) as [p|] eqn:Hp; [|contradiction].
  destruct (Hentries name p Hp) as (prop' & Hin' & Hparam).
  rewrite (In_dict_lookup _ _ _ Hnd Hin') in Hprop. injection Hprop as ->.
  destruct (convert_param_fields required name prop)
    as (fields & Hf & Htype & Hdesc & Henum & Hdefault & _).
  rewrite Hf in Hparam. injection Hparam as <-.
  exists params, fields. split; [exact Hconv|]. split; [exact Hp|].
  split; [exact Htype|]. split; [exact Hdesc|]. split; [exact Henum|].
  split; [exact Hdefault|]. exact (convert_param_keys required name prop fields Hf).
Qed.

(** X7.  The conversion returns, and then a dictionary, exactly on the
    schemas that are a dictionary whose ["properties"], when present, is a
    dictionary of dictionaries and whose ["required"], when present, is a
    list of hashable values, a string or a dictionary.  On a schema that is
    not a dictionary it raises [AttributeError]; it never exits. *)
Theorem conversion_returns_exactly_on_sound_schemas (input_schema : JSON) :
  ((exists params,
      RefreshToolDocs.convert_schema_to_yaml_params input_schema = Ok params) <->
   schema_ok input_schema = true) /\
  (forall params,
     RefreshToolDocs.convert_schema_to_yaml_params input_schema = Ok params ->
     is_dict params = true) /\
  (is_dict input_schema = false ->
   RefreshToolDocs.convert_schema_to_yaml_params input_schema
     = Raise (AttributeError "get" input_schema)) /\
  (forall c, RefreshToolDocs.convert_schema_to_yaml_params input_schema <> Exit c).
Proof.
  split; [|split; [|split]].
  - split.
    + intros (params & Hconv). exact (convert_schema_returns_only_on_ok _ _ Hconv).
    + intros Hok. destruct (convert_schema_spec input_schema Hok) as (params & Hconv & _).
      eexists. exact Hconv.
  - intros params Hconv.
    pose proof (convert_schema_returns_only_on_ok _ _ Hconv) as Hok.
    destruct (convert_schema_spec input_schema Hok) as (params' & Hconv' & _).
    rewrite Hconv' in Hconv. injection Hconv as <-. reflexivity.
  - destruct input_schema; try discriminate; reflexivity.
  - apply convert_schema_never_exits.
Qed.



End MoreSchemaFacts.

(** ** The two scripts, end to end *)

Section MoreLoopFacts.
Context `{PyLib} `{Network}.




Lemma load_config_never_exits (w : World) : res_never_exits (load_config w).1.
Proof.
  unfold load_config. destruct (files w !! _) as [text|]; [|apply res_never_exits_raise].
  destruct (json_loads text); [apply res_never_exits_ok | apply res_never_exits_raise].
Qed.


(** X11.  The doc refresher dies with status 1, having sent nothing,
    printed nothing on standard output and written no file, in each of
    these cases.  The configuration cannot be read or is not JSON: it dies
    at once.  The tools directory cannot be made, say because [tools] is a
    regular file: it dies of that exception, before it looks at the
    servers.  The configuration has no ["mcpServers"], or one that is not a
    mapping: it dies of that once the tools directory is there. *)
Theorem refresher_needs_its_configuration (w : World) :
  let tools_dir := path_div SCRIPT_DIR "tools" in
  (forall e,
     (load_config w).1 = Raise e ->
     run_script RefreshToolDocs.main w = (1, died_of e w)) /\
  (forall config e,
     (load_config w).1 = Ok config ->
     path_mkdir (files w) (dirs w) tools_dir = Some e ->
     run_script RefreshToolDocs.main w = (1, died_of e w)) /\
  (forall config,
     (load_config w).1 = Ok config ->
     path_mkdir (files w) (dirs w) tools_dir = None ->
     (forall servers, py_getitem config "mcpServers" <> Ok (JObject servers)) ->
     exists e,
       run_script RefreshToolDocs.main w = (1, died_of e (with_dir w tools_dir))).
Proof.
  cbv zeta. split; [|split].
  - intros e Hload. unfold run_script, RefreshToolDocs.main. unfold bind at 1.
    pose proof (load_config_keeps_world w) as Hw.
    destruct (load_config w) as [r w']. simpl in Hload, Hw. subst r w'. reflexivity.
  - intros config e Hload Hmkdir. unfold run_script.
    rewrite (refresh_main_mkdir_fails w config e Hload Hmkdir). reflexivity.
  - intros config Hload Hmkdir Hbad.
    assert (Hmain : exists e, RefreshToolDocs.main w
                              = (Raise e, with_dir w (path_div SCRIPT_DIR "tools"))).
    { unfold RefreshToolDocs.main. unfold bind at 1.
      pose proof (load_config_keeps_world w) as Hw.
      destruct (load_config w) as [r w']. simpl in Hload, Hw. subst r w'.
      unfold bind at 1. unfold mkdir at 1. rewrite Hmkdir.
      fold (with_dir w (path_div SCRIPT_DIR "tools")).
      unfold bind at 1. unfold lift at 1.
      pose proof (py_getitem_never_exits config "mcpServers") as Hx.
      destruct (py_getitem config "mcpServers") as [v|e|c].
      - unfold bind at 1. unfold lift at 1.
        destruct v as [| | | | | |servers]; try (eexists; reflexivity).
        exfalso. apply (Hbad servers). reflexivity.
      - eexists. reflexivity.
      - exfalso. apply (Hx c). reflexivity. }
    destruct Hmain as (e & Hmain). exists e.
    unfold run_script. rewrite Hmain. reflexivity.
Qed.

End MoreLoopFacts.

Section MoreExecutorFacts.
Context `{PyLib} `{Network}.

(** The main block of the tool invoker, stage by stage, once it has
    three arguments of which the third decodes. *)
Lemma main_stages (argv : list string) (w : World) params :
  length argv = 4%nat ->
  json_loads (nth 3 argv "") = Some params ->
  Executor.main argv w =
    match (load_config w).1 with
    | Ok config =>
        match py_getitem config "mcpServers" with
        | Ok servers =>
            match py_getitem servers (nth 1 argv "") with
            | Ok server =>
                match py_getitem server "url" with
                | Ok mcp_url =>
                    let call := Executor.call_tool (nth 2 argv "") params
                                  (MCPClient.__init__ mcp_url, w) in
                    match call.1 with
                    | Ok body => print (json_dumps_indent2 body) call.2.2
                    | Raise e => (Raise e, call.2.2)
                    | Exit c => (Exit c, call.2.2)
                    end
                | Raise e => (Raise e, w)
                | Exit c => (Exit c, w)
                end
            | Raise e => (Raise e, w)
            | Exit c => (Exit c, w)
            end
        | Raise e => (Raise e, w)
        | Exit c => (Exit c, w)
        end
    | Raise e => (Raise e, w)
    | Exit c => (Exit c, w)
    end.
Proof.
  intros Hlen Hjson. unfold Executor.main. unfold_py. rewrite Hlen, Hjson. simpl.
  pose proof (load_config_keeps_world w) as Hw.
  destruct (load_config w) as [[config|e|c] w']; simpl in *; subst w'; try reflexivity.
  destruct (py_getitem config "mcpServers") as [servers|e|c]; try reflexivity.
  destruct (py_getitem servers (nth 1 argv "")) as [server|e|c]; try reflexivity.
  destruct (py_getitem server "url") as [mcp_url|e|c]; try reflexivity.
  unfold MCPClient.on_client.
  destruct (Executor.call_tool _ _ _) as [[body|e|c] st]; reflexivity.
Qed.

Lemma call_tool_footprint tool_name params (self : MCPClient.t) (w : World) :
  let r := Executor.call_tool tool_name params (self, w) in
  res_never_exits r.1 /\
  stdout r.2.2 = stdout w /\ stderr r.2.2 = stderr w /\ files r.2.2 = files w /\
  exists new,
    wire r.2.2 = (wire w ++ new)%list /\
    (1 <= length new <= 2)%nat /\
    Forall (posted_to (MCPClient.base_url self)) new.
Proof.
  cbv zeta. rewrite call_tool_unfold. cbv zeta. cbn [fst snd].
  destruct (call_is_network_only "mcp-executor"
              (Executor.tools_call_request tool_name params) self w)
    as (Ho & He & Hf & Hx).
  destruct (call_requests "mcp-executor"
              (Executor.tools_call_request tool_name params) self w)
    as (_ & new & Hnew & Hlen & Hposted).
  cbv zeta in Ho, He, Hf, Hx, Hnew.
  split; [apply res_never_exits_bind; [exact Hx | intros x; apply res_never_exits_ok]|].
  split; [exact Ho|]. split; [exact He|]. split; [exact Hf|].
  exists new. split; [exact Hnew|]. split; [exact Hlen | exact Hposted].
Qed.

(** X13.  Once the arguments and the configuration give a URL, what the
    tool invoker does is decided by [call_tool]: when it returns, the body
    is printed with [json.dumps(..., indent=2)] and the status is 0, also
    when the body is a JSON-RPC error; when it raises, nothing is printed on
    standard output and the process dies of the exception with status 1. *)
Theorem invoker_prints_what_the_call_returns (argv : list string) (w : World)
    (params config servers server mcp_url : JSON) :
  length argv = 4%nat ->
  json_loads (nth 3 argv "") = Some params ->
  (load_config w).1 = Ok config ->
  py_getitem config "mcpServers" = Ok servers ->
  py_getitem servers (nth 1 argv "") = Ok server ->
  py_getitem server "url" = Ok mcp_url ->
  let call := Executor.call_tool (nth 2 argv "") params (MCPClient.__init__ mcp_url, w) in
  match call.1 with
  | Ok body =>
      run_script (Executor.main argv) w = (0, (print (json_dumps_indent2 body) call.2.2).2) /\
      stdout (run_script (Executor.main argv) w).2 = (stdout w ++ [json_dumps_indent2 body])%list /\
      stderr (run_script (Executor.main argv) w).2 = stderr w
  | Raise e =>
      run_script (Executor.main argv) w = (1, died_of e call.2.2) /\
      stdout (run_script (Executor.main argv) w).2 = stdout w
  | Exit _ => False
  end.
Proof.
  intros Hlen Hjson Hconfig Hservers Hserver Hurl. cbv zeta. unfold run_script.
  rewrite (main_stages argv w params Hlen Hjson), Hconfig, Hservers, Hserver, Hurl.
  cbv zeta.
  destruct (call_tool_footprint (nth 2 argv "") params (MCPClient.__init__ mcp_url) w)
    as (Hx & Ho & He & _).
  cbv zeta in Hx, Ho, He.
  destruct (Executor.call_tool _ _ _).1 as [body|e|c].
  - split; [reflexivity|]. simpl. rewrite Ho, He. split; reflexivity.
  - split; [reflexivity|]. simpl. exact Ho.
  - apply (Hx c). reflexivity.
Qed.

Lemma invoker_usage_on_wrong_argument_count_aux (argv : list string) (w : World) :
  length argv <> 4%nat ->
  run_script (Executor.main argv) w =
    (1, {| remote := remote w; wire := wire w;
           stdout := stdout w ++ [Executor.__doc__];
           stderr := stderr w; files := files w; dirs := dirs w |}).
Proof.
  intros Hlen. unfold run_script. rewrite (main_usage argv w Hlen). reflexivity.
Qed.

(** X14.  With any number of arguments other than three, the tool invoker
    prints its usage text on standard output and exits with status 1.  It
    does so before anything else: the configuration is not read, nothing is
    sent, standard error stays empty of it. *)
Theorem invoker_usage_on_wrong_argument_count (argv : list string) (w : World) :
  length argv <> 4%nat ->
  run_script (Executor.main argv) w =
    (1, {| remote := remote w; wire := wire w;
           stdout := stdout w ++ [Executor.__doc__];
           stderr := stderr w; files := files w; dirs := dirs w |}).
Proof.
  exact (invoker_usage_on_wrong_argument_count_aux argv w).
Qed.

(** X15.  A run of the tool invoker ends with status 0 or 1, changes no
    file, and sends at most two requests.  It sends any only when it was
    given three arguments, the third decodes, the configuration loads and
    holds a ["url"] for the server named; and then every request is a POST
    to that URL. *)
Theorem invoker_sends_only_to_the_configured_server (argv : list string) (w : World) :
  let r := run_script (Executor.main argv) w in
  (r.1 = 0 \/ r.1 = 1) /\
  files r.2 = files w /\
  exists new,
    wire r.2 = (wire w ++ new)%list /\
    (length new <= 2)%nat /\
    (new <> [] ->
     length argv = 4%nat /\
     exists params config servers server mcp_url,
       json_loads (nth 3 argv "") = Some params /\
       (load_config w).1 = Ok config /\
       py_getitem config "mcpServers" = Ok servers /\
       py_getitem servers (nth 1 argv "") = Ok server /\
       py_getitem server "url" = Ok mcp_url /\
       Forall (posted_to mcp_url) new).
Proof.
  cbv zeta.
  assert (Hnone : forall code w',
             wire w' = wire w -> files w' = files w -> (code = 0 \/ code = 1) ->
             (code = 0 \/ code = 1) /\ files w' = files w /\
             exists new,
               wire w' = (wire w ++ new)%list /\ (length new <= 2)%nat /\
               (new <> [] ->
                length argv = 4%nat /\
                exists params config servers server mcp_url,
                  json_loads (nth 3 argv "") = Some params /\
                  (load_config w).1 = Ok config /\
                  py_getitem config "mcpServers" = Ok servers /\
                  py_getitem servers (nth 1 argv "") = Ok server /\
                  py_getitem server "url" = Ok mcp_url /\
                  Forall (posted_to mcp_url) new)).
  { intros code w' Hw Hf Hc. split; [exact Hc|]. split; [exact Hf|].
    exists []. rewrite app_nil_r. split; [exact Hw|]. split; [simpl; lia|].
    intros Hne. contradiction. }
  destruct (Nat.eq_dec (length argv) 4%nat) as [Hlen|Hlen].
  2: { rewrite (invoker_usage_on_wrong_argument_count_aux argv w Hlen).
       apply Hnone; auto. }
  destruct (json_loads (nth 3 argv "")) as [params|] eqn:Hjson.
  2: { unfold run_script. rewrite (main_bad_json argv w Hlen Hjson).
       apply Hnone; auto. }
  unfold run_script. rewrite (main_stages argv w params Hlen Hjson).
  pose proof (load_config_never_exits w) as Hx0.
  destruct (load_config w).1 as [config|e|c] eqn:Hconfig;
    [| apply Hnone; auto | exfalso; apply (Hx0 c); reflexivity].
  pose proof (py_getitem_never_exits config "mcpServers") as Hx1.
  destruct (py_getitem config "mcpServers") as [servers|e|c] eqn:Hservers;
    [| apply Hnone; auto | exfalso; apply (Hx1 c); reflexivity].
  pose proof (py_getitem_never_exits servers (nth 1 argv "")) as Hx2.
  destruct (py_getitem servers (nth 1 argv "")) as [server|e|c] eqn:Hserver;
    [| apply Hnone; auto | exfalso; apply (Hx2 c); reflexivity].
  pose proof (py_getitem_never_exits server "url") as Hx3.
  destruct (py_getitem server "url") as [mcp_url|e|c] eqn:Hurl;
    [| apply Hnone; auto | exfalso; apply (Hx3 c); reflexivity].
  cbv zeta.
  destruct (call_tool_footprint (nth 2 argv "") params (MCPClient.__init__ mcp_url) w)
    as (Hx & _ & _ & Hf & new & Hnew & Hlen2 & Hposted).
  cbv zeta in Hx, Hf, Hnew.
  destruct (Executor.call_tool _ _ _).1 as [body|e|c].
  - simpl. split; [left; reflexivity|]. split; [exact Hf|].
    exists new. split; [exact Hnew|]. split; [lia|]. intros _. split; [exact Hlen|].
    exists params, config, servers, server, mcp_url.
    repeat split; try reflexivity; assumption.
  - simpl. split; [right; reflexivity|]. split; [exact Hf|].
    exists new. split; [exact Hnew|]. split; [lia|]. intros _. split; [exact Hlen|].
    exists params, config, servers, server, mcp_url.
    repeat split; try reflexivity; assumption.
  - exfalso. apply (Hx c). reflexivity.
Qed.
End MoreExecutorFacts.

(** ** The statements on the stub server *)

Module OnStub.
Import Sample.

(** The doc refresher on the sample configuration. *)
Example refresh_run :
  let r := run_script RefreshToolDocs.main world0 in
  r.1 = 0 /\
  stdout r.2 = ["Error fetching tools for down: HTTP Error 500: Internal Server Error";
                "Updated: /skill/tools/good.md";
                "Tool docs refreshed"] /\
  length (wire r.2) = 3%nat /\
  files r.2 !! "/skill/tools/down.md" = None.
Proof. vm_compute. repeat split; reflexivity. Qed.

(** The tool invoker against the well-behaved server: the handshake, then
    the call. *)
Example executor_run :
  let r := run_script (Executor.main ["executor.py"; "good"; "echo"; "{}"]) world0 in
  r.1 = 0 /\ stderr r.2 = [] /\
  map method_of (wire r.2) = ["initialize"; "tools/call"].
Proof. vm_compute. repeat split; reflexivity. Qed.

(** The tool invoker with one argument too few. *)
Example executor_usage :
  let r := run_script (Executor.main ["executor.py"; "good"; "echo"]) world0 in
  r.1 = 1 /\ stdout r.2 = [Executor.__doc__] /\ stderr r.2 = [] /\ wire r.2 = [].
Proof. vm_compute. repeat split; reflexivity. Qed.

(** Two calls on one client: three requests in all. *)
Example two_calls_one_handshake :
  let first := Executor.call_tool "echo" (JObject []) (client "http://good/mcp", world0) in
  let second := Executor.call_tool "ping" (JObject []) first.2 in
  map method_of (wire second.2.2) = ["initialize"; "tools/call"; "tools/call"] /\
  MCPClient.session_id second.2.1 = Some "sess-1".
Proof. vm_compute. split; reflexivity. Qed.

(** The sample decoder. *)
Example loads_examples :
  loads "{" = None /\ loads "12 x" = None /\ loads "[1,]" = None /\
  loads " [1, -20, [true, false, null], {}] "
    = Some (JArray [JInt 1; JInt (-20); JArray [JBool true; JBool false; JNull];
                    JObject []]) /\
  loads (dumps config) = Some config /\
  loads (dumps echo_tool) = Some echo_tool.
Proof. vm_compute. repeat split; reflexivity. Qed.

(** The handshake with the well-behaved server stores ["sess-1"]. *)
Lemma initialize_stores_session_header_witness :
  let r := Executor.initialize (client "http://good/mcp", world0) in
  MCPClient.session_id r.2.1 = Some "sess-1" /\ r.1 = Ok handshake_body.
Proof.
  destruct (initialize_stores_session_header "mcp-executor"
              (client "http://good/mcp") world0 session_headers
              handshake_text handshake_body) as (Hexact & _ & _).
  - vm_compute. reflexivity.
  - vm_compute. reflexivity.
  - destruct (Hexact "sess-1") as (Hsid & Hok & _).
    + vm_compute. reflexivity.
    + split; [exact Hsid | apply Hok; discriminate].
Defined.

(** The server [http://lowersid/mcp] sends its session id under the name
    [mcp-session-id]: [headers.get("Mcp-Session-Id")] does not find it. *)
Example lower_case_session_header_is_missed :
  handshake_reply "mcp-executor" (client "http://lowersid/mcp") world0
    = Response lower_headers handshake_text /\
  header_sent "Mcp-Session-Id" lower_headers /\
  lower_headers !! "Mcp-Session-Id" = None /\
  (Executor.initialize (client "http://lowersid/mcp", world0)).1
    = Raise (Exception "No session ID in response").
Proof.
  split; [vm_compute; reflexivity|]. split.
  - exists "mcp-session-id", "sess-1". split; vm_compute; reflexivity.
  - split; vm_compute; reflexivity.
Qed.

(** C2 as stated fails: the server [http://blanksid/mcp] does send the
    [Mcp-Session-Id] header, with an empty value, its answer decodes, and
    [initialize] raises all the same. *)
Lemma initialize_raises_with_header_present :
  handshake_reply "mcp-executor" (client "http://blanksid/mcp") world0
    = Response blank_headers handshake_text /\
  json_loads handshake_text = Some handshake_body /\
  blank_headers !! "Mcp-Session-Id" = Some "" /\
  (Executor.initialize (client "http://blanksid/mcp", world0)).1
    = Raise (Exception "No session ID in response").
Proof. vm_compute. repeat split; reflexivity. Qed.

(** The server [http://err/mcp] answers both calls with a JSON-RPC
    error: the listing raises, the invocation returns it. *)
Lemma error_member_raised_by_listing_returned_by_call_witness :
  (RefreshToolDocs.list_tools (client "http://err/mcp", world0)).1
    = Raise (Exception ("MCP error: " +:+ dumps rpc_error)) /\
  (Executor.call_tool "echo" (JObject []) (client "http://err/mcp", world0)).1
    = Ok (JObject error_body).
Proof.
  destruct (error_member_raised_by_listing_returned_by_call
              (client "http://err/mcp") world0 error_body rpc_error eq_refl)
    as [Hlist Hcall].
  split.
  - apply (Hlist (in_session "refresh-tool-docs" "http://err/mcp") ∅
                 (dumps (JObject error_body))); vm_compute; reflexivity.
  - apply (Hcall (in_session "mcp-executor" "http://err/mcp") ∅
                 (dumps (JObject error_body))); vm_compute; reflexivity.
Defined.



(** The sample configuration knows no server [ghost]. *)
Lemma unknown_server_exits_without_network_witness :
  let r := run_script (Executor.main ["executor.py"; "ghost"; "echo"; "{}"]) world0 in
  r.1 = 1 /\ wire r.2 = [] /\ stderr r.2 = ["KeyError: 'ghost'"].
Proof.
  destruct (unknown_server_exits_without_network
              ["executor.py"; "ghost"; "echo"; "{}"] world0 config
              [("down", server_entry "http://down/mcp");
               ("good", server_entry "http://good/mcp")])
    as (Hcode & Hwire & _ & Hmsg); try (vm_compute; reflexivity).
  destruct (Hmsg eq_refl (JObject [])) as [_ Herr]; [vm_compute; reflexivity|].
  split; [exact Hcode | split; [exact Hwire | exact Herr]].
Defined.

(** C8 as stated fails: the server [ghost] is not configured, and the
    process, given a third argument that is not JSON, reports the
    [JSONDecodeError] of that argument, not the missing server. *)
Lemma unknown_server_reported_as_bad_argument :
  (load_config world0).1 = Ok config /\
  py_getitem config "mcpServers"
    = Ok (JObject [("down", server_entry "http://down/mcp");
                   ("good", server_entry "http://good/mcp")]) /\
  dict_lookup "ghost" [("down", server_entry "http://down/mcp");
                       ("good", server_entry "http://good/mcp")] = None /\
  (Executor.main ["executor.py"; "ghost"; "echo"; "{oops"] world0).1
    = Raise (JSONDecodeError "{oops") /\
  stderr (run_script (Executor.main ["executor.py"; "ghost"; "echo"; "{oops"])
            world0).2
    = ["json.decoder.JSONDecodeError: Expecting value"].
Proof. vm_compute. repeat split; reflexivity. Qed.




(** The schema of the example of C7 is one the conversion accepts. *)
Lemma parameter_names_are_property_keys_witness :
  exists params,
    RefreshToolDocs.convert_schema_to_yaml_params ab_schema = Ok (JObject params) /\
    dict_keys params = ["a"; "b"].
Proof.
  destruct (parameter_names_are_property_keys ab_schema)
    as (params & Hconv & _ & Hkeys & _).
  - vm_compute. reflexivity.
  - exists params. split; [exact Hconv|]. apply Hkeys.
    vm_compute. apply NoDup_cons. split.
    + intros Hin. apply list_elem_of_In in Hin. simpl in Hin.
      destruct Hin as [Hin | []]. discriminate.
    + apply NoDup_cons. split; [|apply NoDup_nil; exact I].
      intros Hin. apply list_elem_of_In in Hin. destruct Hin.
Defined.



(** A server name with a [/] in it names a file in a directory that is
    not there: the write raises, and the loop reports it. *)
Example name_with_a_slash :
  let r := run_script RefreshToolDocs.main (world_of slash_config) in
  r.1 = 0 /\
  stdout r.2 = ["Error fetching tools for a/b: error"; "Tool docs refreshed"] /\
  files r.2 = files (world_of slash_config).
Proof. vm_compute. repeat split; reflexivity. Qed.

(** When [tools] is a regular file the directory cannot be made, and the
    doc refresher dies before it sends anything. *)
Example tools_is_a_regular_file :
  let r := run_script RefreshToolDocs.main world_tools_is_a_file in
  r.1 = 1 /\ stdout r.2 = [] /\ wire r.2 = [] /\ stderr r.2 = ["OSError: error"].
Proof. vm_compute. repeat split; reflexivity. Qed.
End OnStub.

(** ** The further properties on the stub server *)

Module OnStubMore.
Import Sample.

(** [http://down/mcp] fails the handshake with a 500: the call raises
    it, one request having gone out. *)
Lemma failed_handshake_ends_the_call_witness :
  let r := Executor.call_tool "echo" (JObject []) (client "http://down/mcp", world0) in
  r.1 = Raise (HTTPError 500 "Internal Server Error") /\
  map method_of (wire r.2.2) = ["initialize"].
Proof.
  destruct (failed_handshake_ends_the_call (client "http://down/mcp") world0
              (HTTPError 500 "Internal Server Error") eq_refl) as [Hcall _].
  rewrite (Hcall "echo" (JObject [])); [|vm_compute; reflexivity].
  vm_compute. split; reflexivity.
Defined.


Lemma list_tools_returns_iff_witness :
  (RefreshToolDocs.list_tools (client "http://good/mcp", world0)).1
    = Ok (JArray [echo_tool; ping_tool]).
Proof.
  destruct (list_tools_returns_iff (client "http://good/mcp") world0
              (in_session "refresh-tool-docs" "http://good/mcp") ∅
              (dumps (JObject [("jsonrpc", JString "2.0"); ("id", JInt 2);
                               ("result", JObject
                                  [("tools", JArray [echo_tool; ping_tool])])]))
              (JObject [("jsonrpc", JString "2.0"); ("id", JInt 2);
                        ("result", JObject
                           [("tools", JArray [echo_tool; ping_tool])])])
              (JArray [echo_tool; ping_tool])) as [Hiff _];
    [vm_compute; reflexivity .. |].
  apply Hiff. eexists. split; [reflexivity|]. split; [reflexivity|].
  right. eexists. split; reflexivity.
Defined.

Lemma parameter_record_fields_witness :
  exists params fields,
    RefreshToolDocs.convert_schema_to_yaml_params ab_schema = Ok (JObject params) /\
    dict_lookup "b" params = Some (JObject fields) /\
    dict_lookup "type" fields = Some (JString "integer") /\
    dict_lookup "default" fields = Some (JInt 5) /\
    dict_lookup "desc" fields = None.
Proof.
  destruct (parameter_record_fields ab_schema "b"
              [("type", JString "integer"); ("default", JInt 5)])
    as (params & fields & Hconv & Hb & Htype & Hdesc & _ & Hdefault & _).
  - vm_compute. reflexivity.
  - vm_compute. apply NoDup_cons. split.
    + intros Hin. apply list_elem_of_In in Hin. simpl in Hin.
      destruct Hin as [Hin | []]. discriminate.
    + apply NoDup_cons. split; [|apply NoDup_nil; exact I].
      intros Hin. apply list_elem_of_In in Hin. destruct Hin.
  - reflexivity.
  - exists params, fields. repeat split; assumption.
Defined.



(** Without its configuration file; with [tools] a regular file; with a
    configuration that is the empty object. *)
Lemma refresher_needs_its_configuration_witness :
  run_script RefreshToolDocs.main world_without_config
    = (1, died_of (OSError "/skill/mcp-config.json") world_without_config) /\
  run_script RefreshToolDocs.main world_tools_is_a_file
    = (1, died_of (OSError "/skill/tools") world_tools_is_a_file) /\
  exists e,
    run_script RefreshToolDocs.main (world_of (JObject []))
      = (1, died_of e (with_dir (world_of (JObject [])) "/skill/tools")).
Proof.
  split; [|split].
  - destruct (refresher_needs_its_configuration world_without_config) as (Hload & _ & _).
    apply Hload. vm_compute. reflexivity.
  - destruct (refresher_needs_its_configuration world_tools_is_a_file)
      as (_ & Hmkdir & _).
    apply (Hmkdir config); vm_compute; reflexivity.
  - destruct (refresher_needs_its_configuration (world_of (JObject [])))
      as (_ & _ & Hbad).
    refine (Hbad (JObject []) _ _ _).
    + vm_compute. reflexivity.
    + vm_compute. reflexivity.
    + intros servers Hservers. vm_compute in Hservers. discriminate.
Defined.


(** The server answers the call with a JSON-RPC error: the body is
    printed and the status is 0. *)
Lemma invoker_prints_what_the_call_returns_witness :
  let r := run_script (Executor.main ["executor.py"; "err"; "echo"; "{}"]) world_err in
  r.1 = 0 /\ stdout r.2 = [dumps (JObject error_body)] /\ stderr r.2 = [].
Proof.
  pose proof (invoker_prints_what_the_call_returns
                ["executor.py"; "err"; "echo"; "{}"] world_err (JObject []) err_config
                (JObject [("err", server_entry "http://err/mcp")])
                (server_entry "http://err/mcp") (JString "http://err/mcp")
                eq_refl) as Hrun.
  cbv zeta in Hrun.
  assert (Hcall : (Executor.call_tool "echo" (JObject [])
                     (MCPClient.__init__ (JString "http://err/mcp"), world_err)).1
                  = Ok (JObject error_body)) by (vm_compute; reflexivity).
  change (nth 2 ["executor.py"; "err"; "echo"; "{}"] "") with "echo" in Hrun.
  rewrite Hcall in Hrun.
  destruct Hrun as (Hrun & Hout & Herr); try (vm_compute; reflexivity).
  cbv zeta. split; [rewrite Hrun; reflexivity|].
  split; [exact Hout | exact Herr].
Defined.

Lemma invoker_usage_on_wrong_argument_count_witness :
  let r := run_script (Executor.main ["executor.py"]) world_without_config in
  r.1 = 1 /\ stdout r.2 = [Executor.__doc__] /\ stderr r.2 = [] /\ wire r.2 = [].
Proof.
  cbv zeta.
  rewrite (invoker_usage_on_wrong_argument_count ["executor.py"] world_without_config).
  - repeat split.
  - simpl. lia.
Defined.
End OnStubMore.
